(** * GovCloud FSX inventory: a shallow embedding of [list_govcloud_fsx.py]

    The script is a single class, [GovCloudFSXInventory], whose methods call
    the AWS SDK, print to the console and write one CSV file.  The embedding
    keeps that shape:

    - the SDK is an environment record [Env] answering each operation the
      script performs, either with a value or with a [ClientError] (the
      only SDK failure the script names, together with
      [NoCredentialsError] in [connect]);
    - every method is a computation in the monad [M], which threads the
      object ([self], whose [session] attribute [connect] assigns), collects
      the observable events (console lines, SDK operations, the file
      written) and can stop early with [sys.exit] or an uncaught exception;
    - Python [str] is [string] (the bytes of its UTF-8 encoding), a [dict]
      with a fixed set of keys is a record, a [list] is a [list]. *)

From Stdlib Require Import String Ascii List Bool Arith ZArith Lia DecimalString.
Import ListNotations.
Open Scope string_scope.
Open Scope list_scope.

Set Implicit Arguments.

(** ** Python strings *)

Definition nl : string := String (ascii_of_nat 10) EmptyString.

(** [len(x)] inside an f-string. *)
Definition str_of_nat (n : nat) : string :=
  NilEmpty.string_of_uint (Nat.to_uint n).

(** [str.lower()].  On the UTF-8 bytes only the ASCII capitals move; no
    other code point lowers to one of the letters of the marker used by
    [list_accounts]. *)
Definition lower_ascii (c : ascii) : ascii :=
  let n := nat_of_ascii c in
  if ((65 <=? n)%nat && (n <=? 90)%nat)%bool then ascii_of_nat (n + 32) else c.

Fixpoint lower (s : string) : string :=
  match s with
  | EmptyString => EmptyString
  | String c s' => String (lower_ascii c) (lower s')
  end.

(** [needle in hay] on strings. *)
Fixpoint substring_in (needle hay : string) : bool :=
  match hay with
  | EmptyString => prefix needle EmptyString
  | String _ hay' => prefix needle hay || substring_in needle hay'
  end.

(** [x in [a, b, ...]] on a list of strings. *)
Definition str_in_list (x : string) (l : list string) : bool :=
  existsb (String.eqb x) l.

(** Truth value of a string and of a list. *)
Definition truthy_str (s : string) : bool :=
  match s with EmptyString => false | _ => true end.

Definition truthy_list {A} (l : list A) : bool :=
  match l with [] => false | _ => true end.

(** ['=' * n] *)
Fixpoint str_repeat (s : string) (n : nat) : string :=
  match n with
  | O => EmptyString
  | S n' => (s ++ str_repeat s n')%string
  end.

(** [', '.join(l)] *)
Fixpoint join (sep : string) (l : list string) : string :=
  match l with
  | [] => EmptyString
  | [x] => x
  | x :: rest => (x ++ sep ++ join sep rest)%string
  end.

(** ** Data model *)

(** A credential context: [boto3.Session(profile_name=p)], [boto3.Session()]
    or [boto3.Session(aws_access_key_id=.., aws_secret_access_key=..,
    aws_session_token=..)]. *)
Inductive Session : Type :=
| ProfileSession (profile : string)
| DefaultSession
| KeySession (access_key_id secret_access_key session_token : string).

(** The values a session variable takes in the script: [None], a session
    object, or the string ['mock_session'] of the dry run. *)
Inductive pyval : Type :=
| PyNone
| PySession (s : Session)
| PyStr (s : string).

Definition truthy (v : pyval) : bool :=
  match v with
  | PyNone => false
  | PySession _ => true
  | PyStr s => truthy_str s
  end.

(** An element of [page['Accounts']]: ['Id'] is indexed, the other keys are
    read with [.get]. *)
Record RawAccount : Type := {
  Id : string;
  Name : option string;
  Email : option string;
  Status : option string
}.

(** The dictionary [list_accounts] builds: keys ['id'], ['name'], ['email'],
    ['status']. *)
Record Account : Type := {
  acct_id : string;
  acct_name : string;
  acct_email : string;
  acct_status : string
}.

(** An element of [page['FileSystems']]. *)
Record RawFileSystem : Type := {
  FileSystemId : string;
  FileSystemType : string;
  CreationTime : option string;
  Lifecycle : option string
}.

(** A page of [describe_file_systems]; the key ['FileSystems'] is read with
    [.get(.., [])]. *)
Record FsxPage : Type := {
  FileSystems : option (list RawFileSystem)
}.

(** The dictionary [list_fsx_systems] builds. *)
Record FileSystemRecord : Type := {
  filesystem_id : string;
  filesystem_type : string;
  region : string;
  creation_time : string;
  lifecycle : string
}.

(** The dictionary [scan_accounts] builds, one per exported line; its keys
    are the column titles. *)
Record InventoryRow : Type := {
  Organization_Name : string;
  GovCloud_Account_ID : string;
  FSX_ID : string;
  FSX_Type : string;
  Region : string;
  Lifecycle_col : string
}.

(** The row as the [dict] it is, in insertion order. *)
Definition row_items (r : InventoryRow) : list (string * string) :=
  [ ("Organization Name", Organization_Name r);
    ("GovCloud Account ID", GovCloud_Account_ID r);
    ("FSX ID", FSX_ID r);
    ("FSX Type", FSX_Type r);
    ("Region", Region r);
    ("Lifecycle", Lifecycle_col r) ].

(** [d.get(key, default)] on such a dictionary. *)
Fixpoint dict_get (d : list (string * string)) (key default : string) : string :=
  match d with
  | [] => default
  | (k, v) :: d' => if String.eqb k key then v else dict_get d' key default
  end.

(** ** The SDK as an environment *)

(** [botocore.exceptions.ClientError]: [e.response['Error']['Code']] and
    [str(e)]. *)
Record ClientError : Type := {
  Code : string;
  err_text : string
}.

(** What [paginator.paginate()] yields: the pages delivered, then possibly a
    [ClientError] instead of the next page. *)
Record Paged (A : Type) : Type := {
  pages : list A;
  failure : option ClientError
}.

Record Identity : Type := {
  Arn : string;
  Account_no : string
}.

Record Credentials : Type := {
  AccessKeyId : string;
  SecretAccessKey : string;
  SessionToken : string
}.

(** How the identity check of [connect] can fail. *)
Inductive AuthFailure : Type :=
| NoCredentialsError
| AuthClientError (e : ClientError).

Record Env : Type := {
  sts_get_caller_identity : Session -> AuthFailure + Identity;
  org_list_accounts : Session -> Paged (list RawAccount);
  sts_assume_role : Session -> string -> string -> ClientError + Credentials;
  fsx_describe_file_systems : Session -> string -> Paged FsxPage;
  (** [datetime.now().strftime('%Y%m%d_%H%M%S')] *)
  now_stamp : string
}.

(** ** Observable events *)

Inductive api_call : Type :=
| GetCallerIdentity (s : Session)
| ListAccounts (s : Session)
| AssumeRole (s : Session) (RoleArn RoleSessionName : string)
| DescribeFileSystems (s : Session) (region_name : string).

Inductive event : Type :=
| Print (line : string)
| Call (c : api_call)
| WriteCsv (filename : string) (records : list (list string)).

(** The operations that query the storage service. *)
Definition is_describe (c : api_call) : bool :=
  match c with DescribeFileSystems _ _ => true | _ => false end.

(** ** The object and the monad of its methods *)

Record Inventory : Type := {
  profile_name : option string;
  dry_run : bool;
  role_name : string;
  session : pyval;
  govcloud_regions : list string
}.

(** [__init__] *)
Definition init (profile : option string) (dry : bool) (role : string) : Inventory :=
  {| profile_name := profile;
     dry_run := dry;
     role_name := role;
     session := PyNone;
     govcloud_regions := ["us-gov-west-1"; "us-gov-east-1"] |}.

(** Exceptions no handler of the script catches: [AttributeError] on a
    value without the attribute, and the exceptions botocore raises outside
    [ClientError] (EndpointConnectionError, ReadTimeoutError, ...), kept by
    the name of their class. *)
Inductive uncaught : Type :=
| AttributeError
| SdkError (class_name : string).

Inductive outcome (A : Type) : Type :=
| Val (a : A)
| Raised (e : uncaught)
| Exited (code : Z).

Arguments Val {A} a.
Arguments Raised {A} e.
Arguments Exited {A} code.

Definition M (A : Type) : Type :=
  Inventory -> outcome A * Inventory * list event.

Definition ret {A} (a : A) : M A :=
  fun self => (Val a, self, []).

Definition bind {A B} (m : M A) (f : A -> M B) : M B :=
  fun self =>
    match m self with
    | (Val a, self1, t1) =>
        match f a self1 with
        | (o, self2, t2) => (o, self2, t1 ++ t2)
        end
    | (Raised e, self1, t1) => (Raised e, self1, t1)
    | (Exited c, self1, t1) => (Exited c, self1, t1)
    end.

Declare Scope py_scope.
Delimit Scope py_scope with py.
Notation "x <- m ;; k" := (bind m (fun x => k))
  (at level 61, m at next level, right associativity) : py_scope.
Notation "m ;; k" := (bind m (fun _ => k))
  (at level 61, right associativity) : py_scope.
Open Scope py_scope.

Definition emit (e : event) : M unit :=
  fun self => (Val tt, self, [e]).

Definition print (line : string) : M unit := emit (Print line).

Definition call (c : api_call) : M unit := emit (Call c).

Definition get_self : M Inventory :=
  fun self => (Val self, self, []).

(** The object after [self.session = v]. *)
Definition with_session (self : Inventory) (v : pyval) : Inventory :=
  {| profile_name := profile_name self;
     dry_run := dry_run self;
     role_name := role_name self;
     session := v;
     govcloud_regions := govcloud_regions self |}.

Definition set_session (v : pyval) : M unit :=
  fun self => (Val tt, with_session self v, []).

Definition raise {A} (e : uncaught) : M A :=
  fun self => (Raised e, self, []).

(** [sys.exit(code)] *)
Definition sys_exit {A} (code : Z) : M A :=
  fun self => (Exited code, self, []).

Definition when (b : bool) (m : M unit) : M unit :=
  if b then m else ret tt.

(** [for x in l: body(x)] *)
Fixpoint for_each {A} (l : list A) (body : A -> M unit) : M unit :=
  match l with
  | [] => ret tt
  | x :: l' => body x ;; for_each l' body
  end.

(** [v.client(service)]: only a session object has the method. *)
Definition client (v : pyval) : M Session :=
  match v with
  | PySession s => ret s
  | _ => raise AttributeError
  end.

(** Projections of a finished computation. *)
Definition result_of {A} (r : outcome A * Inventory * list event) : outcome A :=
  fst (fst r).
Definition self_of {A} (r : outcome A * Inventory * list event) : Inventory :=
  snd (fst r).
Definition trace_of {A} (r : outcome A * Inventory * list event) : list event :=
  snd r.

(** ** Small Python helpers *)

(** [d.get(key, default)] for a key that may be absent. *)
Definition get_default (o : option string) (default : string) : string :=
  match o with Some v => v | None => default end.

(** [d.get(key) == s] *)
Definition opt_eqb (o : option string) (s : string) : bool :=
  match o with Some v => String.eqb v s | None => false end.

(** Truth value of [self.profile_name]. *)
Definition truthy_opt (o : option string) : bool :=
  match o with Some s => truthy_str s | None => false end.

(** [enumerate(l, start)] *)
Fixpoint enumerate {A} (l : list A) (start : nat) : list (nat * A) :=
  match l with
  | [] => []
  | x :: l' => (start, x) :: enumerate l' (S start)
  end.

(** ** [connect] *)

(** [boto3.Session(profile_name=self.profile_name)] when the profile name is
    truthy, [boto3.Session()] otherwise. *)
Definition new_session (profile : option string) : Session :=
  match profile with
  | Some p => if truthy_str p then ProfileSession p else DefaultSession
  | None => DefaultSession
  end.

Definition connect (env : Env) : M bool :=
  self <- get_self ;;
  if dry_run self then
    print "✓ [DRY-RUN] Would connect as: arn:aws:iam::123456789012:user/mock-user" ;;
    print "✓ [DRY-RUN] Would use account: 123456789012" ;;
    ret true
  else
    set_session (PySession (new_session (profile_name self))) ;;
    self <- get_self ;;
    sts <- client (session self) ;;
    call (GetCallerIdentity sts) ;;
    match sts_get_caller_identity env sts with
    | inr identity =>
        print ("✓ Connected as: " ++ Arn identity) ;;
        print ("✓ Account: " ++ Account_no identity) ;;
        ret true
    | inl NoCredentialsError =>
        print "ERROR: No AWS credentials found. Please configure AWS SSO:" ;;
        print "  1. Run: aws configure sso" ;;
        print "  2. Run: aws sso login --profile <your-profile>" ;;
        ret false
    | inl (AuthClientError e) =>
        print ("ERROR: Failed to authenticate: " ++ err_text e) ;;
        ret false
    end.

(** ** [list_accounts] *)

Definition mock_accounts : list Account :=
  [ {| acct_id := "987654321098";
       acct_name := "Production-GovCloud";
       acct_email := "govcloud-prod@example.com";
       acct_status := "ACTIVE" |};
    {| acct_id := "876543210987";
       acct_name := "Development-GovCloud";
       acct_email := "govcloud-dev@example.com";
       acct_status := "ACTIVE" |};
    {| acct_id := "765432109876";
       acct_name := "Test-GovCloud";
       acct_email := "govcloud-test@example.com";
       acct_status := "ACTIVE" |} ].

(** The condition of the [if] in the inner loop. *)
Definition keeps_account (account : RawAccount) : bool :=
  let account_name := get_default (Name account) EmptyString in
  let account_email := get_default (Email account) EmptyString in
  substring_in "govcloud" (lower account_name)
  || substring_in "govcloud" (lower account_email)
  || opt_eqb (Status account) "ACTIVE".

(** The dictionary appended for a kept account. *)
Definition account_entry (account : RawAccount) : Account :=
  {| acct_id := Id account;
     acct_name := get_default (Name account) EmptyString;
     acct_email := get_default (Email account) EmptyString;
     acct_status := get_default (Status account) "UNKNOWN" |}.

(** Body of [for account in page['Accounts']], on the list [accounts]. *)
Definition list_accounts_step (accounts : list Account) (account : RawAccount)
  : list Account :=
  if keeps_account account then accounts ++ [account_entry account] else accounts.

(** Both loops, over the pages delivered. *)
Definition list_accounts_loop (accounts : list Account)
    (delivered : list (list RawAccount)) : list Account :=
  fold_left (fun acc page => fold_left list_accounts_step page acc) delivered accounts.

Definition list_accounts (env : Env) : M (list Account) :=
  self <- get_self ;;
  if dry_run self then
    print (nl ++ "→ [DRY-RUN] Would list accounts in organization...") ;;
    print "  [DRY-RUN] API Call: organizations.list_accounts()" ;;
    print ("✓ [DRY-RUN] Would find " ++ str_of_nat (length mock_accounts) ++ " account(s)") ;;
    for_each mock_accounts
      (fun acc => print ("  - " ++ acct_name acc ++ " (" ++ acct_id acc ++ ")")) ;;
    ret mock_accounts
  else
    org_client <- client (session self) ;;
    print (nl ++ "→ Listing accounts in organization...") ;;
    call (ListAccounts org_client) ;;
    let response := org_list_accounts env org_client in
    let accounts := list_accounts_loop [] (pages response) in
    match failure response with
    | None =>
        print ("✓ Found " ++ str_of_nat (length accounts) ++ " account(s)") ;;
        ret accounts
    | Some e =>
        (if String.eqb (Code e) "AccessDeniedException" then
           print "ERROR: No permission to access AWS Organizations." ;;
           print "This script requires organizations:ListAccounts permission."
         else
           print ("ERROR: Failed to list accounts: " ++ err_text e)) ;;
        ret []
    end.

(** ** [assume_role] *)

Definition role_arn_of (account_id role : string) : string :=
  "arn:aws-us-gov:iam::" ++ account_id ++ ":role/" ++ role.

Definition assume_role (env : Env) (account_id : string) : M pyval :=
  self <- get_self ;;
  if dry_run self then
    print ("  [DRY-RUN] Would assume role: " ++ role_arn_of account_id (role_name self)) ;;
    ret (PyStr "mock_session")
  else
    sts_client <- client (session self) ;;
    let role_arn := role_arn_of account_id (role_name self) in
    call (AssumeRole sts_client role_arn ("fsx-inventory-" ++ account_id)) ;;
    match sts_assume_role env sts_client role_arn ("fsx-inventory-" ++ account_id) with
    | inr credentials =>
        ret (PySession (KeySession (AccessKeyId credentials)
                                   (SecretAccessKey credentials)
                                   (SessionToken credentials)))
    | inl e =>
        print ("  ⚠ Cannot assume role in account " ++ account_id ++ ": " ++ Code e) ;;
        ret PyNone
    end.

(** ** [list_fsx_systems] *)

Definition mock_fsx : list FileSystemRecord :=
  [ {| filesystem_id := "fs-0123456789abcdef0";
       filesystem_type := "LUSTRE";
       region := "us-gov-west-1";
       creation_time := "2024-01-15";
       lifecycle := "AVAILABLE" |};
    {| filesystem_id := "fs-abcdef0123456789";
       filesystem_type := "WINDOWS";
       region := "us-gov-west-1";
       creation_time := "2024-02-20";
       lifecycle := "AVAILABLE" |} ].

(** The dictionary appended for one file system of [region_name]. *)
Definition fsx_entry (region_name : string) (fs : RawFileSystem) : FileSystemRecord :=
  {| filesystem_id := FileSystemId fs;
     filesystem_type := FileSystemType fs;
     region := region_name;
     creation_time := get_default (CreationTime fs) EmptyString;
     lifecycle := get_default (Lifecycle fs) EmptyString |}.

(** [page.get('FileSystems', [])] *)
Definition file_systems_of (page : FsxPage) : list RawFileSystem :=
  match FileSystems page with Some l => l | None => [] end.

(** [for fs in page.get('FileSystems', [])] on the list [fsx_systems]. *)
Definition fsx_page_loop (region_name : string) (fsx_systems : list FileSystemRecord)
    (page : FsxPage) : list FileSystemRecord :=
  fold_left (fun acc fs => acc ++ [fsx_entry region_name fs])
            (file_systems_of page)
            fsx_systems.

(** One turn of [for region in self.govcloud_regions].  What the pages
    delivered before a [ClientError] appended stays in [fsx_systems]; the
    handler only prints (or not) and goes on to the next region. *)
Definition fsx_region (env : Env) (session : pyval) (region_name : string)
    (fsx_systems : list FileSystemRecord) : M (list FileSystemRecord) :=
  fsx_client <- client session ;;
  call (DescribeFileSystems fsx_client region_name) ;;
  let response := fsx_describe_file_systems env fsx_client region_name in
  let fsx_systems := fold_left (fsx_page_loop region_name) (pages response) fsx_systems in
  match failure response with
  | None =>
      when (truthy_list fsx_systems)
        (print ("  ✓ Found " ++ str_of_nat (length fsx_systems)
                  ++ " FSX system(s) in " ++ region_name)) ;;
      ret fsx_systems
  | Some e =>
      when (negb (str_in_list (Code e) ["AccessDenied"; "UnauthorizedOperation"]))
        (print ("  ⚠ Error querying FSX in " ++ region_name ++ ": " ++ Code e)) ;;
      ret fsx_systems
  end.

Fixpoint fsx_regions (env : Env) (session : pyval) (regions : list string)
    (fsx_systems : list FileSystemRecord) : M (list FileSystemRecord) :=
  match regions with
  | [] => ret fsx_systems
  | region_name :: rest =>
      fsx_systems' <- fsx_region env session region_name fsx_systems ;;
      fsx_regions env session rest fsx_systems'
  end.

Definition list_fsx_systems (env : Env) (session : pyval) (account_info : Account)
  : M (list FileSystemRecord) :=
  self <- get_self ;;
  if dry_run self then
    print ("  [DRY-RUN] Would query FSX in regions: "
             ++ join ", " (govcloud_regions self)) ;;
    print ("  ✓ [DRY-RUN] Would find " ++ str_of_nat (length mock_fsx)
             ++ " FSX system(s)") ;;
    ret mock_fsx
  else
    fsx_regions env session (govcloud_regions self) [].

(** ** [scan_accounts] *)

(** The dictionary appended to [results] for one file system of an account. *)
Definition inventory_row (account_name account_id : string) (fsx : FileSystemRecord)
  : InventoryRow :=
  {| Organization_Name := account_name;
     GovCloud_Account_ID := account_id;
     FSX_ID := filesystem_id fsx;
     FSX_Type := filesystem_type fsx;
     Region := region fsx;
     Lifecycle_col := lifecycle fsx |}.

(** Reading the attribute [self.session] inside [try]: [__init__] assigns
    the attribute, so the read yields its value. *)
Definition read_session (self : Inventory) : uncaught + pyval :=
  inr (session self).

Definition skip_message (account_id : string) : string :=
  "  ⚠ Skipping account " ++ account_id.

(** The part of the loop body that settles [assumed_session]; [None] stands
    for [continue]. *)
Definition settle_session (assumed_session : pyval) (account_id : string)
  : M (option pyval) :=
  self <- get_self ;;
  if negb (truthy assumed_session) then
    if negb (dry_run self) then
      match read_session self with
      | inr v => ret (Some v)
      | inl _ => print (skip_message account_id) ;; ret None
      end
    else
      print ("  ⚠ [DRY-RUN] Would skip account " ++ account_id) ;;
      ret None
  else ret (Some assumed_session).

(** Body of [for account in accounts], on the list [results]. *)
Definition scan_account (env : Env) (account : Account) (results : list InventoryRow)
  : M (list InventoryRow) :=
  let account_id := acct_id account in
  let account_name := acct_name account in
  print (nl ++ "  Processing: " ++ account_name ++ " (" ++ account_id ++ ")") ;;
  assumed_session <- assume_role env account_id ;;
  settled <- settle_session assumed_session account_id ;;
  match settled with
  | None => ret results
  | Some assumed_session =>
      fsx_systems <- list_fsx_systems env assumed_session account ;;
      if truthy_list fsx_systems then
        ret (results ++ map (inventory_row account_name account_id) fsx_systems)
      else
        print "  ℹ No FSX file systems found" ;;
        ret results
  end.

Fixpoint scan_loop (env : Env) (accounts : list Account) (results : list InventoryRow)
  : M (list InventoryRow) :=
  match accounts with
  | [] => ret results
  | account :: rest =>
      results' <- scan_account env account results ;;
      scan_loop env rest results'
  end.

Definition scan_accounts (env : Env) (accounts : list Account) : M (list InventoryRow) :=
  print (nl ++ "→ Scanning accounts for FSX file systems...") ;;
  scan_loop env accounts [].

(** ** [export_to_csv] *)

Definition fieldnames : list string :=
  ["Organization Name"; "GovCloud Account ID"; "FSX ID"; "FSX Type"; "Region";
   "Lifecycle"].

(** The record [csv.DictWriter.writerow] emits for a dictionary: the value of
    each field name in turn. *)
Definition dict_record (fields : list string) (row : InventoryRow) : list string :=
  map (fun key => dict_get (row_items row) key EmptyString) fields.

(** [open(output_file, 'w')], [writer.writeheader()], [writer.writerows(results)]:
    the file holds the header record, then one record per row. *)
Definition write_csv (output_file : string) (results : list InventoryRow) : M unit :=
  emit (WriteCsv output_file (fieldnames :: map (dict_record fieldnames) results)).

Definition output_name (env : Env) : string :=
  "govcloud_fsx_inventory_" ++ now_stamp env ++ ".csv".

Definition sample_line (i : nat) (result : InventoryRow) : string :=
  "    " ++ str_of_nat i ++ ". " ++ Organization_Name result ++ " | "
    ++ GovCloud_Account_ID result ++ " | " ++ FSX_ID result.

Definition export_to_csv (env : Env) (results : list InventoryRow) : M string :=
  let output_file := output_name env in
  self <- get_self ;;
  if dry_run self then
    print (nl ++ "→ [DRY-RUN] Would write " ++ str_of_nat (length results)
             ++ " result(s) to " ++ output_file) ;;
    print "  [DRY-RUN] CSV columns: Organization Name, GovCloud Account ID, FSX ID, FSX Type, Region, Lifecycle" ;;
    when (truthy_list results)
      (print (nl ++ "  [DRY-RUN] Sample data (first 3 rows):") ;;
       for_each (enumerate (firstn 3 results) 1)
         (fun ir => print (sample_line (fst ir) (snd ir)))) ;;
    ret output_file
  else
    (if truthy_list results then
       print (nl ++ "→ Writing results to " ++ output_file ++ "...") ;;
       write_csv output_file results ;;
       print ("✓ Successfully wrote " ++ str_of_nat (length results)
                ++ " FSX system(s) to " ++ output_file)
     else
       print (nl ++ "⚠ No FSX file systems found in any account")) ;;
    ret output_file.

(** ** [run] and [main] *)

Definition banner : string := str_repeat "=" 60.

Definition run (env : Env) : M unit :=
  self <- get_self ;;
  print banner ;;
  print "AWS GovCloud FSX Inventory Script" ;;
  when (dry_run self)
    (print "[DRY-RUN MODE - No actual AWS API calls will be made]") ;;
  print banner ;;
  (if truthy_opt (profile_name self) then
     print (nl ++ "→ Using AWS profile: " ++ get_default (profile_name self) EmptyString)
   else
     print (nl ++ "→ Using default AWS credentials")) ;;
  print (nl ++ "→ Authenticating with AWS SSO...") ;;
  connected <- connect env ;;
  (if negb connected then sys_exit 1%Z else ret tt) ;;
  accounts <- list_accounts env ;;
  (if negb (truthy_list accounts) then
     print "ERROR: No accounts found or accessible" ;;
     sys_exit 1%Z
   else ret tt) ;;
  results <- scan_accounts env accounts ;;
  export_to_csv env results ;;
  print (nl ++ banner) ;;
  print "Scan complete!" ;;
  print banner.

(** The parsed command line: [--profile], [--dry-run], [--role-name]. *)
Record Args : Type := {
  arg_profile : option string;
  arg_dry_run : bool;
  arg_role_name : option string
}.

Definition default_role_name : string := "OrganizationAccountAccessRole".

(** [inventory = GovCloudFSXInventory(profile_name=.., dry_run=.., role_name=..)] *)
Definition inventory (args : Args) : Inventory :=
  init (arg_profile args) (arg_dry_run args)
       (get_default (arg_role_name args) default_role_name).

(** [main]: builds the object from the arguments and runs it. *)
Definition main (env : Env) (args : Args) : outcome unit * Inventory * list event :=
  run env (inventory args).

(** Exit status of the process: 0 when [main] returns, the argument of
    [sys.exit], 1 after an uncaught exception. *)
Definition exit_status (o : outcome unit) : Z :=
  match o with
  | Val _ => 0%Z
  | Exited code => code
  | Raised _ => 1%Z
  end.

(** The files a run has created, in order. *)
Fixpoint files_written (t : list event) : list (string * list (list string)) :=
  match t with
  | [] => []
  | WriteCsv f recs :: t' => (f, recs) :: files_written t'
  | _ :: t' => files_written t'
  end.

(** The console lines of a run, in order. *)
Fixpoint printed (t : list event) : list string :=
  match t with
  | [] => []
  | Print s :: t' => s :: printed t'
  | _ :: t' => printed t'
  end.

(** The SDK operations of a run, in order. *)
Fixpoint calls (t : list event) : list api_call :=
  match t with
  | [] => []
  | Call c :: t' => c :: calls t'
  | _ :: t' => calls t'
  end.

(** ** Reading the claims *)

(** [marker] occurs in [s] when case is ignored: some segment of [s] is the
    marker up to the case of its letters. *)
Definition occurs_ignoring_case (marker s : string) : Prop :=
  exists before segment after : string,
    s = (before ++ segment ++ after)%string /\ lower segment = lower marker.

(** The session [scan_accounts] hands to [list_fsx_systems] for an account
    when the caller's session is [s]: the one built from the credentials of
    the assumed role, or [s] itself when the role cannot be assumed. *)
Definition session_for (env : Env) (self : Inventory) (s : Session) (account : Account)
  : Session :=
  match sts_assume_role env s (role_arn_of (acct_id account) (role_name self))
                        ("fsx-inventory-" ++ acct_id account) with
  | inr c => KeySession (AccessKeyId c) (SecretAccessKey c) (SessionToken c)
  | inl _ => s
  end.

(** The file systems a region delivers to session [s], page after page, up
    to the end of the listing or to its failure. *)
Definition delivered (env : Env) (s : Session) (region_name : string)
  : list RawFileSystem :=
  flat_map file_systems_of (pages (fsx_describe_file_systems env s region_name)).

(** The file-system records observed for session [s] over [regions]. *)
Definition observed_records (env : Env) (s : Session) (regions : list string)
  : list FileSystemRecord :=
  flat_map (fun r => map (fsx_entry r) (delivered env s r)) regions.

(** The (account, file system) pairs a live scan observes, in order. *)
Definition observed_pairs (env : Env) (self : Inventory) (s : Session)
    (accounts : list Account) : list (Account * FileSystemRecord) :=
  flat_map (fun a => map (pair a)
                         (observed_records env (session_for env self s a)
                                           (govcloud_regions self)))
           accounts.

(** The pairs of the dry run: every account with every fixture. *)
Definition mock_pairs (accounts : list Account) : list (Account * FileSystemRecord) :=
  flat_map (fun a => map (pair a) mock_fsx) accounts.

Definition row_of_pair (p : Account * FileSystemRecord) : InventoryRow :=
  inventory_row (acct_name (fst p)) (acct_id (fst p)) (snd p).

(** The SDK operations a live scan of one account performs. *)
Definition account_calls (env : Env) (self : Inventory) (s : Session) (a : Account)
  : list api_call :=
  AssumeRole s (role_arn_of (acct_id a) (role_name self)) ("fsx-inventory-" ++ acct_id a)
  :: map (DescribeFileSystems (session_for env self s a)) (govcloud_regions self).

Definition is_skip_message (e : event) : Prop :=
  exists account_id, e = Print (skip_message account_id).

(** The accounts [list_accounts] keeps from the pages delivered. *)
Definition kept_accounts (delivered_pages : list (list RawAccount)) : list Account :=
  map account_entry (filter keeps_account (concat delivered_pages)).

(** Whether [connect] reports success on [self]. *)
Definition authenticates (env : Env) (self : Inventory) : bool :=
  match result_of (connect env self) with
  | Val b => b
  | _ => false
  end.

(** The accounts [list_accounts] returns once [connect] has run on [self]. *)
Definition accounts_listed (env : Env) (self : Inventory) : list Account :=
  match result_of (list_accounts env (self_of (connect env self))) with
  | Val l => l
  | _ => []
  end.

(** The six values of a row, in the order of the columns. *)
Definition row_values (r : InventoryRow) : list string :=
  [Organization_Name r; GovCloud_Account_ID r; FSX_ID r; FSX_Type r; Region r;
   Lifecycle_col r].

(** What the trace of a scan is checked for: its SDK operations, that it
    writes no file, and that no account was skipped. *)
Definition scan_trace (cs : list api_call) (t : list event) : Prop :=
  calls t = cs /\ files_written t = [] /\ Forall (fun e => ~ is_skip_message e) t.




(** The line [list_accounts] prints for a fixture account. *)
Definition account_line (acc : Account) : string :=
  "  - " ++ acct_name acc ++ " (" ++ acct_id acc ++ ")".


(** The six lines of the preview of the dry run over the fixtures. *)
Definition fixture_preview (output_file : string) : list string :=
  [ nl ++ "→ [DRY-RUN] Would write 6 result(s) to " ++ output_file;
    "  [DRY-RUN] CSV columns: Organization Name, GovCloud Account ID, FSX ID, FSX Type, Region, Lifecycle";
    nl ++ "  [DRY-RUN] Sample data (first 3 rows):";
    "    1. Production-GovCloud | 987654321098 | fs-0123456789abcdef0";
    "    2. Production-GovCloud | 987654321098 | fs-abcdef0123456789";
    "    3. Development-GovCloud | 876543210987 | fs-0123456789abcdef0" ]%string.

(** ** Scenarios *)

Definition operator : Identity :=
  {| Arn := "arn:aws:iam::123456789012:user/operator";
     Account_no := "123456789012" |}.

Definition client_error (code : string) : ClientError :=
  {| Code := code;
     err_text := "An error occurred (" ++ code ++ ") when calling the operation" |}.

Definition raw_account (i n e st : string) : RawAccount :=
  {| Id := i; Name := Some n; Email := Some e; Status := Some st |}.

Definition raw_fs (i ty : string) : RawFileSystem :=
  {| FileSystemId := i;
     FileSystemType := ty;
     CreationTime := None;
     Lifecycle := Some "AVAILABLE" |}.

(** An environment where the caller authenticates, no role can be assumed,
    and the two regions answer [west] and [east] to every session. *)
Definition scenario_env (listing : Paged (list RawAccount)) (west east : Paged FsxPage)
  : Env :=
  {| sts_get_caller_identity := fun _ => inr operator;
     org_list_accounts := fun _ => listing;
     sts_assume_role := fun _ _ _ => inl (client_error "AccessDenied");
     fsx_describe_file_systems :=
       fun _ r => if String.eqb r "us-gov-west-1" then west else east;
     now_stamp := "20240115_093000" |}.

Definition account_A : RawAccount :=
  raw_account "111122223333" "Account-A" "a@example.com" "ACTIVE".

Definition one_account : Paged (list RawAccount) :=
  {| pages := [[account_A]]; failure := None |}.

Definition nothing_found : Paged FsxPage :=
  {| pages := [ {| FileSystems := Some [] |} ]; failure := None |}.

(** Account A: the first region is denied, the second delivers two file
    systems. *)
Definition denied_then_two : Env :=
  scenario_env one_account
    {| pages := []; failure := Some (client_error "AccessDenied") |}
    {| pages := [ {| FileSystems := Some [raw_fs "fs-0a" "LUSTRE"; raw_fs "fs-0b" "ONTAP"] |} ];
       failure := None |}.

(** One active account without any file system. *)
Definition empty_inventory : Env :=
  scenario_env one_account nothing_found nothing_found.

(** The listing delivers a page of two accounts and is then denied. *)
Definition listing_denied : Env :=
  scenario_env
    {| pages := [[account_A;
                  raw_account "444455556666" "Account-B" "b@example.com" "ACTIVE"]];
       failure := Some (client_error "AccessDeniedException") |}
    nothing_found nothing_found.

(** A listing with a suspended account that carries the marker and one that
    does not. *)
Definition mixed_listing : Env :=
  scenario_env
    {| pages := [[account_A;
                  raw_account "777788889999" "Legacy" "legacy@example.com" "SUSPENDED"];
                 [raw_account "000011112222" "Old-GovCloud" "old@example.com" "SUSPENDED"]];
       failure := None |}
    nothing_found nothing_found.

(** The two rows of account A in [denied_then_two]. *)
Definition rows_of_A : list InventoryRow :=
  [ inventory_row "Account-A" "111122223333"
      (fsx_entry "us-gov-east-1" (raw_fs "fs-0a" "LUSTRE"));
    inventory_row "Account-A" "111122223333"
      (fsx_entry "us-gov-east-1" (raw_fs "fs-0b" "ONTAP")) ].

Definition live_args : Args :=
  {| arg_profile := None; arg_dry_run := false; arg_role_name := None |}.

Definition no_flags_dry_run : Args :=
  {| arg_profile := None; arg_dry_run := true; arg_role_name := None |}.

(** The object of a live run once [connect] has succeeded. *)
Definition live_self : Inventory :=
  with_session (init None false default_role_name) (PySession DefaultSession).

(** ** Further scenarios *)

(** No credentials are configured: the identity check of [connect] fails. *)
Definition no_credentials : Env :=
  {| sts_get_caller_identity := fun _ => inl NoCredentialsError;
     org_list_accounts := fun _ => one_account;
     sts_assume_role := fun _ _ _ => inl (client_error "AccessDenied");
     fsx_describe_file_systems := fun _ _ => nothing_found;
     now_stamp := "20240115_093000" |}.

Definition granted : Credentials :=
  {| AccessKeyId := "ASIAEXAMPLE";
     SecretAccessKey := "example-secret";
     SessionToken := "example-token" |}.

Definition two_file_systems : Paged FsxPage :=
  {| pages := [ {| FileSystems := Some [raw_fs "fs-0a" "LUSTRE"; raw_fs "fs-0b" "ONTAP"] |} ];
     failure := None |}.

(** Every role can be assumed; only the assumed session sees file systems,
    and only in the first region. *)
Definition role_granted : Env :=
  {| sts_get_caller_identity := fun _ => inr operator;
     org_list_accounts := fun _ => one_account;
     sts_assume_role := fun _ _ _ => inr granted;
     fsx_describe_file_systems :=
       fun s r =>
         match s with
         | KeySession _ _ _ =>
             if String.eqb r "us-gov-west-1" then two_file_systems else nothing_found
         | _ => nothing_found
         end;
     now_stamp := "20240115_093000" |}.

(** Two file systems in the first region, none in the second. *)
Definition west_two : Env :=
  scenario_env one_account two_file_systems nothing_found.

(** Both regions refuse the query, each with one of the two codes the
    handler of [list_fsx_systems] keeps quiet about. *)
Definition all_denied : Env :=
  scenario_env one_account
    {| pages := []; failure := Some (client_error "AccessDenied") |}
    {| pages := []; failure := Some (client_error "UnauthorizedOperation") |}.

(** The listing delivers a page and then fails with a code other than
    AccessDeniedException. *)
Definition listing_throttled : Env :=
  scenario_env
    {| pages := [[account_A]];
       failure := Some (client_error "TooManyRequestsException") |}
    nothing_found nothing_found.

Definition account_B : RawAccount :=
  raw_account "444455556666" "Account-B" "b@example.com" "ACTIVE".

(** A live object on which [connect] has not run. *)
Definition unconnected : Inventory := init None false default_role_name.



(** ** Region queries that raise outside [ClientError] *)

(** [Env] answers a region query with pages and possibly a [ClientError].
    The SDK can also raise an exception of another class there.
    [breaks s r = Some c] says that the query of region [r] with session
    [s] raises an exception of class [c] that is not a [ClientError]. *)
Definition Breaks : Type := Session -> string -> option string.

(** One turn of [for region in self.govcloud_regions] under [breaks]: the
    handler names [ClientError] only, so the other exception leaves the
    loop and the method; otherwise the turn is [fsx_region]. *)
Definition fsx_region_any (env : Env) (breaks : Breaks) (session : pyval)
    (region_name : string) (fsx_systems : list FileSystemRecord)
  : M (list FileSystemRecord) :=
  fsx_client <- client session ;;
  match breaks fsx_client region_name with
  | Some class_name =>
      call (DescribeFileSystems fsx_client region_name) ;;
      raise (SdkError class_name)
  | None => fsx_region env session region_name fsx_systems
  end.

Fixpoint fsx_regions_any (env : Env) (breaks : Breaks) (session : pyval)
    (regions : list string) (fsx_systems : list FileSystemRecord)
  : M (list FileSystemRecord) :=
  match regions with
  | [] => ret fsx_systems
  | region_name :: rest =>
      fsx_systems' <- fsx_region_any env breaks session region_name fsx_systems ;;
      fsx_regions_any env breaks session rest fsx_systems'
  end.

Definition list_fsx_systems_any (env : Env) (breaks : Breaks) (session : pyval)
    (account_info : Account) : M (list FileSystemRecord) :=
  self <- get_self ;;
  if dry_run self then list_fsx_systems env session account_info
  else fsx_regions_any env breaks session (govcloud_regions self) [].

(** [scan_accounts] has no handler around [list_fsx_systems]: the loop body
    and the loop are those of [scan_account] and [scan_loop]. *)
Definition scan_account_any (env : Env) (breaks : Breaks) (account : Account)
    (results : list InventoryRow) : M (list InventoryRow) :=
  let account_id := acct_id account in
  let account_name := acct_name account in
  print (nl ++ "  Processing: " ++ account_name ++ " (" ++ account_id ++ ")") ;;
  assumed_session <- assume_role env account_id ;;
  settled <- settle_session assumed_session account_id ;;
  match settled with
  | None => ret results
  | Some assumed_session =>
      fsx_systems <- list_fsx_systems_any env breaks assumed_session account ;;
      if truthy_list fsx_systems then
        ret (results ++ map (inventory_row account_name account_id) fsx_systems)
      else
        print "  ℹ No FSX file systems found" ;;
        ret results
  end.

Fixpoint scan_loop_any (env : Env) (breaks : Breaks) (accounts : list Account)
    (results : list InventoryRow) : M (list InventoryRow) :=
  match accounts with
  | [] => ret results
  | account :: rest =>
      results' <- scan_account_any env breaks account results ;;
      scan_loop_any env breaks rest results'
  end.

Definition scan_accounts_any (env : Env) (breaks : Breaks) (accounts : list Account)
  : M (list InventoryRow) :=
  print (nl ++ "→ Scanning accounts for FSX file systems...") ;;
  scan_loop_any env breaks accounts [].

(** No region query raises outside [ClientError]. *)
Definition never_breaks : Breaks := fun _ _ => None.

(** The first region cannot be reached. *)
Definition west_unreachable : Breaks :=
  fun _ r => if String.eqb r "us-gov-west-1" then Some "EndpointConnectionError"
             else None.

(** * Properties *)

(** ** Strings *)

Lemma append_assoc (a b c : string) :
  ((a ++ b) ++ c)%string = (a ++ b ++ c)%string.
Proof.
  induction a as [|x a IH]; simpl; [reflexivity | now rewrite IH].
Qed.

Lemma prefix_spec (n h : string) :
  prefix n h = true <-> exists suf, h = (n ++ suf)%string.
Proof.
  revert h; induction n as [|c n IH]; intros h; simpl.
  - split; [intros _; now exists h | intros _; destruct h; reflexivity].
  - destruct h as [|d h]; simpl.
    + split; [discriminate | intros [suf H]; discriminate].
    + destruct (ascii_dec c d) as [->|Hcd].
      * rewrite IH. split; intros [suf H]; exists suf.
        -- now rewrite H.
        -- now inversion H.
      * split; [discriminate | intros [suf H]; inversion H; congruence].
Qed.

Lemma substring_in_spec (n h : string) :
  substring_in n h = true <->
  exists pre suf, h = (pre ++ n ++ suf)%string.
Proof.
  induction h as [|c h IH]; cbn [substring_in].
  - rewrite prefix_spec. split.
    + intros [suf H]. exists EmptyString, suf. exact H.
    + intros [pre [suf H]]. destruct pre; simpl in H.
      * now exists suf.
      * discriminate.
  - rewrite orb_true_iff, IH, prefix_spec. split.
    + intros [[suf H] | [pre [suf H]]].
      * exists EmptyString, suf. exact H.
      * exists (String c pre), suf. simpl. now rewrite H.
    + intros [pre [suf H]]. destruct pre as [|d pre]; simpl in H.
      * left. now exists suf.
      * right. inversion H. now exists pre, suf.
Qed.

Lemma lower_app (a b : string) :
  lower (a ++ b) = (lower a ++ lower b)%string.
Proof.
  induction a as [|c a IH]; simpl; [reflexivity | now rewrite IH].
Qed.

Lemma lower_split (s a' b' : string) :
  lower s = (a' ++ b')%string ->
  exists a b, s = (a ++ b)%string /\ lower a = a' /\ lower b = b'.
Proof.
  revert s; induction a' as [|c a' IH]; intros s H; simpl in H.
  - exists EmptyString, s. auto.
  - destruct s as [|d s]; simpl in H; [discriminate|].
    inversion H as [[Hc Hs]].
    destruct (IH s Hs) as [a [b [-> [Ha Hb]]]].
    exists (String d a), b. simpl. now rewrite Ha, Hb.
Qed.

Lemma lower_ascii_idem (c : ascii) : lower_ascii (lower_ascii c) = lower_ascii c.
Proof.
  unfold lower_ascii.
  destruct ((65 <=? nat_of_ascii c)%nat && (nat_of_ascii c <=? 90)%nat) eqn:E.
  - apply andb_true_iff in E. destruct E as [E1 E2].
    apply Nat.leb_le in E1, E2.
    rewrite nat_ascii_embedding by lia.
    replace ((65 <=? nat_of_ascii c + 32)%nat && (nat_of_ascii c + 32 <=? 90)%nat)
      with false; [reflexivity|].
    symmetry. apply andb_false_iff. right. apply Nat.leb_gt. lia.
  - now rewrite E.
Qed.

Lemma lower_idem (s : string) : lower (lower s) = lower s.
Proof.
  induction s as [|c s IH]; simpl; [reflexivity|].
  now rewrite lower_ascii_idem, IH.
Qed.

(** The test of [list_accounts] decides occurrence up to case. *)
Lemma substring_in_lower (marker s : string) :
  lower marker = marker ->
  substring_in marker (lower s) = true <-> occurs_ignoring_case marker s.
Proof.
  intros Hm. rewrite substring_in_spec. unfold occurs_ignoring_case. split.
  - intros [pre [suf H]].
    destruct (lower_split _ _ _ H) as [a [r [-> [Ha Hr]]]].
    destruct (lower_split _ _ _ Hr) as [m [b [-> [Hmm Hb]]]].
    exists a, m, b. split; [reflexivity | now rewrite Hm].
  - intros [a [m [b [-> Hl]]]].
    exists (lower a), (lower b).
    rewrite !lower_app, Hl, Hm. reflexivity.
Qed.

(** ** Traces *)

Lemma calls_app (t1 t2 : list event) : calls (t1 ++ t2) = calls t1 ++ calls t2.
Proof.
  induction t1 as [|e t1 IH]; simpl; [reflexivity|].
  destruct e; simpl; now rewrite IH.
Qed.

Lemma files_written_app (t1 t2 : list event) :
  files_written (t1 ++ t2) = files_written t1 ++ files_written t2.
Proof.
  induction t1 as [|e t1 IH]; simpl; [reflexivity|].
  destruct e; simpl; now rewrite IH.
Qed.

Lemma printed_app (t1 t2 : list event) :
  printed (t1 ++ t2) = printed t1 ++ printed t2.
Proof.
  induction t1 as [|e t1 IH]; simpl; [reflexivity|].
  destruct e; simpl; now rewrite IH.
Qed.

Lemma scan_trace_nil : scan_trace [] [].
Proof. repeat split; constructor. Qed.

Lemma scan_trace_eq (c c' : list api_call) (t : list event) :
  scan_trace c t -> c = c' -> scan_trace c' t.
Proof. intros H <-. exact H. Qed.

Lemma scan_trace_app (c1 c2 : list api_call) (t1 t2 : list event) :
  scan_trace c1 t1 -> scan_trace c2 t2 -> scan_trace (c1 ++ c2) (t1 ++ t2).
Proof.
  intros [H1 [H2 H3]] [K1 [K2 K3]]. repeat split.
  - now rewrite calls_app, H1, K1.
  - now rewrite files_written_app, H2, K2.
  - apply Forall_app; split; assumption.
Qed.

Lemma scan_trace_call (c : api_call) : scan_trace [c] [Call c].
Proof.
  repeat split. constructor; [|constructor].
  intros [i H]. discriminate H.
Qed.

Lemma scan_trace_print (line : string) :
  (forall account_id, line <> skip_message account_id) ->
  scan_trace [] [Print line].
Proof.
  intros H. repeat split. constructor; [|constructor].
  intros [i E]. inversion E. now apply (H i).
Qed.

Lemma scan_trace_when (b : bool) (line : string) (self : Inventory) :
  (forall account_id, line <> skip_message account_id) ->
  exists t, when b (print line) self = (Val tt, self, t) /\ scan_trace [] t.
Proof.
  intros H. destruct b; simpl.
  - eexists; split; [reflexivity | now apply scan_trace_print].
  - eexists; split; [reflexivity | apply scan_trace_nil].
Qed.

(** Console lines of the scan that differ from the skip message in a fixed
    position. *)
Ltac not_skip :=
  let i := fresh "i" in
  let E := fresh "E" in
  intros i E; unfold skip_message, nl in E; simpl in E; discriminate E.

(** ** [list_fsx_systems] on a live run *)

Lemma fsx_page_loop_app (r : string) (acc : list FileSystemRecord) (page : FsxPage) :
  fsx_page_loop r acc page = acc ++ map (fsx_entry r) (file_systems_of page).
Proof.
  unfold fsx_page_loop.
  generalize (file_systems_of page).
  intros l. revert acc. induction l as [|fs l IH]; intros acc; simpl.
  - now rewrite app_nil_r.
  - rewrite IH, <- app_assoc. reflexivity.
Qed.

Lemma fsx_pages_app (r : string) (ps : list FsxPage) (acc : list FileSystemRecord) :
  fold_left (fsx_page_loop r) ps acc
  = acc ++ map (fsx_entry r) (flat_map file_systems_of ps).
Proof.
  revert acc. induction ps as [|p ps IH]; intros acc; simpl.
  - now rewrite app_nil_r.
  - rewrite IH, fsx_page_loop_app, map_app, app_assoc. reflexivity.
Qed.

Lemma fsx_region_run (env : Env) (s : Session) (r : string)
    (acc : list FileSystemRecord) (self : Inventory) :
  exists t,
    fsx_region env (PySession s) r acc self
    = (Val (acc ++ map (fsx_entry r) (delivered env s r)), self, t)
    /\ scan_trace [DescribeFileSystems s r] t.
Proof.
  unfold fsx_region, delivered.
  cbn [client]. unfold bind at 1. cbn [ret]. unfold bind at 1. cbn [call emit].
  rewrite fsx_pages_app.
  set (recs := acc ++ map (fsx_entry r) _).
  destruct (failure (fsx_describe_file_systems env s r)) as [e|].
  - unfold bind.
    destruct (scan_trace_when
                (negb (str_in_list (Code e) ["AccessDenied"; "UnauthorizedOperation"]))
                (line := ("  ⚠ Error querying FSX in " ++ r ++ ": " ++ Code e)%string)
                self) as [t [Ht Hs]]; [not_skip|].
    rewrite Ht. cbn [ret]. eexists; split; [reflexivity|].
    cbn [app]. rewrite app_nil_r.
    apply (scan_trace_app (scan_trace_call _) Hs).
  - unfold bind.
    destruct (scan_trace_when (truthy_list recs)
                (line := ("  ✓ Found " ++ str_of_nat (length recs)
                          ++ " FSX system(s) in " ++ r)%string)
                self) as [t [Ht Hs]]; [not_skip|].
    rewrite Ht. cbn [ret]. eexists; split; [reflexivity|].
    cbn [app]. rewrite app_nil_r.
    apply (scan_trace_app (scan_trace_call _) Hs).
Qed.

Lemma fsx_regions_run (env : Env) (s : Session) (regions : list string)
    (acc : list FileSystemRecord) (self : Inventory) :
  exists t,
    fsx_regions env (PySession s) regions acc self
    = (Val (acc ++ observed_records env s regions), self, t)
    /\ scan_trace (map (DescribeFileSystems s) regions) t.
Proof.
  revert acc. induction regions as [|r regions IH]; intros acc.
  - exists []. split; [|apply scan_trace_nil].
    simpl. unfold ret. now rewrite app_nil_r.
  - destruct (fsx_region_run env s r acc self) as [t1 [H1 S1]].
    destruct (IH (acc ++ map (fsx_entry r) (delivered env s r))) as [t2 [H2 S2]].
    exists (t1 ++ t2). split.
    + cbn [fsx_regions]. unfold bind. rewrite H1, H2.
      unfold observed_records. cbn [flat_map]. now rewrite app_assoc.
    + apply (scan_trace_app S1 S2).
Qed.

Lemma list_fsx_systems_live (env : Env) (s : Session) (account : Account)
    (self : Inventory) :
  dry_run self = false ->
  exists t,
    list_fsx_systems env (PySession s) account self
    = (Val (observed_records env s (govcloud_regions self)), self, t)
    /\ scan_trace (map (DescribeFileSystems s) (govcloud_regions self)) t.
Proof.
  intros Hdry.
  destruct (fsx_regions_run env s (govcloud_regions self) [] self) as [t [H S]].
  exists t. split; [|exact S].
  unfold list_fsx_systems, bind, get_self. rewrite Hdry, H. reflexivity.
Qed.

(** ** [assume_role] and the choice of the session on a live run *)

Lemma assume_role_live (env : Env) (s : Session) (account_id : string)
    (self : Inventory) :
  dry_run self = false ->
  session self = PySession s ->
  exists t,
    assume_role env account_id self
    = (Val (match sts_assume_role env s (role_arn_of account_id (role_name self))
                                  ("fsx-inventory-" ++ account_id) with
            | inr c => PySession (KeySession (AccessKeyId c) (SecretAccessKey c)
                                             (SessionToken c))
            | inl _ => PyNone
            end), self, t)
    /\ scan_trace [AssumeRole s (role_arn_of account_id (role_name self))
                              ("fsx-inventory-" ++ account_id)] t.
Proof.
  intros Hdry Hs.
  unfold assume_role, bind, get_self. rewrite Hdry, Hs. cbn [client ret call emit].
  destruct (sts_assume_role env s _ _) as [e|c]; cbn.
  - eexists; split; [reflexivity|].
    apply (scan_trace_app (scan_trace_call _)).
    apply scan_trace_print. not_skip.
  - eexists; split; [reflexivity|]. apply scan_trace_call.
Qed.

Lemma settle_session_live (v : pyval) (account_id : string) (self : Inventory) :
  dry_run self = false ->
  settle_session v account_id self
  = (Val (Some (if truthy v then v else session self)), self, []).
Proof.
  intros Hdry. unfold settle_session, bind, get_self, read_session.
  rewrite Hdry. destruct (truthy v); reflexivity.
Qed.

(** ** [scan_accounts] on a live run *)

Lemma scan_account_live (env : Env) (s : Session) (a : Account)
    (results : list InventoryRow) (self : Inventory) :
  dry_run self = false ->
  session self = PySession s ->
  exists t,
    scan_account env a results self
    = (Val (results
            ++ map (inventory_row (acct_name a) (acct_id a))
                   (observed_records env (session_for env self s a)
                                     (govcloud_regions self))),
       self, t)
    /\ scan_trace (account_calls env self s a) t.
Proof.
  intros Hdry Hs.
  destruct (@assume_role_live env s (acct_id a) self Hdry Hs) as [t1 [H1 S1]].
  destruct (@list_fsx_systems_live env (session_for env self s a) a self Hdry)
    as [t2 [H2 S2]].
  unfold scan_account.
  unfold bind at 1. cbn [print emit].
  unfold bind at 1. rewrite H1.
  unfold bind at 1. rewrite settle_session_live by exact Hdry.
  assert (Hsel : (if truthy
                     match sts_assume_role env s
                             (role_arn_of (acct_id a) (role_name self))
                             ("fsx-inventory-" ++ acct_id a) with
                     | inl _ => PyNone
                     | inr c => PySession (KeySession (AccessKeyId c)
                                             (SecretAccessKey c) (SessionToken c))
                     end
                  then
                     match sts_assume_role env s
                             (role_arn_of (acct_id a) (role_name self))
                             ("fsx-inventory-" ++ acct_id a) with
                     | inl _ => PyNone
                     | inr c => PySession (KeySession (AccessKeyId c)
                                             (SecretAccessKey c) (SessionToken c))
                     end
                  else session self)
                 = PySession (session_for env self s a)).
  { unfold session_for. destruct (sts_assume_role env s _ _); simpl; [exact Hs | reflexivity]. }
  rewrite Hsel. unfold bind at 1. rewrite H2.
  set (recs := observed_records env (session_for env self s a) (govcloud_regions self)).
  assert (Sp : scan_trace []
                 [Print (nl ++ "  Processing: " ++ acct_name a ++ " (" ++ acct_id a ++ ")")]).
  { apply scan_trace_print. not_skip. }
  assert (Sn : scan_trace [] [Print "  ℹ No FSX file systems found"]).
  { apply scan_trace_print. not_skip. }
  destruct recs as [|x recs'] eqn:Erecs.
  - cbn [truthy_list]. unfold bind. cbn [print emit ret].
    eexists; split.
    + cbn [map]. rewrite (app_nil_r results). reflexivity.
    + refine (scan_trace_eq
                (scan_trace_app Sp
                   (scan_trace_app S1
                      (scan_trace_app scan_trace_nil
                         (scan_trace_app S2 (scan_trace_app Sn scan_trace_nil))))) _).
      unfold account_calls. simpl. now rewrite app_nil_r.
  - cbn [truthy_list ret].
    eexists; split; [reflexivity|].
    refine (scan_trace_eq
              (scan_trace_app Sp
                 (scan_trace_app S1
                    (scan_trace_app scan_trace_nil
                       (scan_trace_app S2 scan_trace_nil)))) _).
    unfold account_calls. simpl. now rewrite app_nil_r.
Qed.

Lemma map_row_of_pair (a : Account) (recs : list FileSystemRecord) :
  map row_of_pair (map (pair a) recs)
  = map (inventory_row (acct_name a) (acct_id a)) recs.
Proof.
  rewrite map_map. reflexivity.
Qed.

Lemma scan_loop_live (env : Env) (s : Session) (accounts : list Account)
    (results : list InventoryRow) (self : Inventory) :
  dry_run self = false ->
  session self = PySession s ->
  exists t,
    scan_loop env accounts results self
    = (Val (results ++ map row_of_pair (observed_pairs env self s accounts)), self, t)
    /\ scan_trace (flat_map (account_calls env self s) accounts) t.
Proof.
  intros Hdry Hs. revert results.
  induction accounts as [|a accounts IH]; intros results.
  - exists []. split; [|apply scan_trace_nil].
    simpl. unfold ret. now rewrite app_nil_r.
  - destruct (@scan_account_live env s a results self Hdry Hs) as [t1 [H1 S1]].
    destruct (IH (results
                  ++ map (inventory_row (acct_name a) (acct_id a))
                         (observed_records env (session_for env self s a)
                                           (govcloud_regions self))))
      as [t2 [H2 S2]].
    exists (t1 ++ t2). split.
    + cbn [scan_loop]. unfold bind. rewrite H1, H2.
      unfold observed_pairs. cbn [flat_map].
      rewrite map_app, map_row_of_pair, app_assoc. reflexivity.
    + cbn [flat_map]. apply (scan_trace_app S1 S2).
Qed.

Lemma scan_accounts_live (env : Env) (s : Session) (accounts : list Account)
    (self : Inventory) :
  dry_run self = false ->
  session self = PySession s ->
  exists t,
    scan_accounts env accounts self
    = (Val (map row_of_pair (observed_pairs env self s accounts)), self, t)
    /\ scan_trace (flat_map (account_calls env self s) accounts) t.
Proof.
  intros Hdry Hs.
  destruct (@scan_loop_live env s accounts [] self Hdry Hs) as [t [H S]].
  exists ([Print (nl ++ "→ Scanning accounts for FSX file systems...")] ++ t). split.
  - unfold scan_accounts, bind. cbn [print emit]. rewrite H. reflexivity.
  - assert (Sp : scan_trace []
                   [Print (nl ++ "→ Scanning accounts for FSX file systems...")]).
    { apply scan_trace_print. not_skip. }
    exact (scan_trace_app Sp S).
Qed.

(** ** The scan of a dry run *)

Lemma assume_role_dry (env : Env) (account_id : string) (self : Inventory) :
  dry_run self = true ->
  assume_role env account_id self
  = (Val (PyStr "mock_session"), self,
     [Print ("  [DRY-RUN] Would assume role: "
               ++ role_arn_of account_id (role_name self))]).
Proof.
  intros Hdry. unfold assume_role. unfold bind at 1. cbn [get_self].
  rewrite Hdry. reflexivity.
Qed.

Lemma list_fsx_systems_dry (env : Env) (v : pyval) (account : Account)
    (self : Inventory) :
  dry_run self = true ->
  list_fsx_systems env v account self
  = (Val mock_fsx, self,
     [Print ("  [DRY-RUN] Would query FSX in regions: "
               ++ join ", " (govcloud_regions self));
      Print ("  ✓ [DRY-RUN] Would find " ++ str_of_nat (length mock_fsx)
               ++ " FSX system(s)")]).
Proof.
  intros Hdry. unfold list_fsx_systems. unfold bind at 1. cbn [get_self].
  rewrite Hdry. reflexivity.
Qed.

Lemma settle_session_truthy (v : pyval) (account_id : string) (self : Inventory) :
  truthy v = true ->
  settle_session v account_id self = (Val (Some v), self, []).
Proof.
  intros Hv. unfold settle_session. unfold bind at 1. cbn [get_self].
  rewrite Hv. reflexivity.
Qed.

Lemma scan_account_dry (env : Env) (a : Account) (results : list InventoryRow)
    (self : Inventory) :
  dry_run self = true ->
  exists t,
    scan_account env a results self
    = (Val (results ++ map (inventory_row (acct_name a) (acct_id a)) mock_fsx), self, t)
    /\ scan_trace [] t.
Proof.
  intros Hdry.
  unfold scan_account.
  unfold bind at 1. cbn [print emit].
  unfold bind at 1. rewrite assume_role_dry by exact Hdry.
  unfold bind at 1. rewrite settle_session_truthy by reflexivity.
  unfold bind at 1. rewrite list_fsx_systems_dry by exact Hdry.
  cbn [mock_fsx truthy_list ret].
  eexists; split; [reflexivity|].
  repeat split.
  repeat (constructor; [intros [i E]; unfold skip_message, nl in E; simpl in E;
                        discriminate E|]).
  constructor.
Qed.

Lemma scan_loop_dry (env : Env) (accounts : list Account)
    (results : list InventoryRow) (self : Inventory) :
  dry_run self = true ->
  exists t,
    scan_loop env accounts results self
    = (Val (results ++ map row_of_pair (mock_pairs accounts)), self, t)
    /\ scan_trace [] t.
Proof.
  intros Hdry. revert results.
  induction accounts as [|a accounts IH]; intros results.
  - exists []. split; [|apply scan_trace_nil].
    simpl. unfold ret. now rewrite app_nil_r.
  - destruct (@scan_account_dry env a results self Hdry) as [t1 [H1 S1]].
    destruct (IH (results ++ map (inventory_row (acct_name a) (acct_id a)) mock_fsx))
      as [t2 [H2 S2]].
    exists (t1 ++ t2). split.
    + cbn [scan_loop]. unfold bind. rewrite H1, H2.
      unfold mock_pairs. cbn [flat_map].
      rewrite map_app, map_row_of_pair, app_assoc. reflexivity.
    + apply (scan_trace_app S1 S2).
Qed.

Lemma scan_accounts_dry (env : Env) (accounts : list Account) (self : Inventory) :
  dry_run self = true ->
  exists t,
    scan_accounts env accounts self
    = (Val (map row_of_pair (mock_pairs accounts)), self, t)
    /\ scan_trace [] t.
Proof.
  intros Hdry.
  destruct (@scan_loop_dry env accounts [] self Hdry) as [t [H S]].
  exists ([Print (nl ++ "→ Scanning accounts for FSX file systems...")] ++ t). split.
  - unfold scan_accounts, bind. cbn [print emit]. rewrite H. reflexivity.
  - assert (Sp : scan_trace []
                   [Print (nl ++ "→ Scanning accounts for FSX file systems...")]).
    { apply scan_trace_print. not_skip. }
    exact (scan_trace_app Sp S).
Qed.

(** ** Sequencing *)

Lemma bind_eq A B (m : M A) (f : A -> M B) (self self1 self2 : Inventory)
    (a : A) (o : outcome B) (t1 t2 : list event) :
  m self = (Val a, self1, t1) ->
  f a self1 = (o, self2, t2) ->
  bind m f self = (o, self2, t1 ++ t2).
Proof.
  intros H1 H2. unfold bind. now rewrite H1, H2.
Qed.

Lemma bind_exit A B (m : M A) (f : A -> M B) (self self1 : Inventory)
    (code : Z) (t1 : list event) :
  m self = (Exited code, self1, t1) ->
  bind m f self = (Exited code, self1, t1).
Proof.
  intros H1. unfold bind. now rewrite H1.
Qed.

Lemma bind_raised A B (m : M A) (f : A -> M B) (self self1 : Inventory)
    (e : uncaught) (t1 : list event) :
  m self = (Raised e, self1, t1) ->
  bind m f self = (Raised e, self1, t1).
Proof.
  intros H1. unfold bind. now rewrite H1.
Qed.

Lemma for_each_print A (f : A -> string) (l : list A) (self : Inventory) :
  for_each l (fun x => print (f x)) self = (Val tt, self, map (fun x => Print (f x)) l).
Proof.
  induction l as [|x l IH]; simpl; [reflexivity|].
  unfold bind. cbn [print emit]. now rewrite IH.
Qed.

(** ** [connect] *)

Lemma connect_dry (env : Env) (self : Inventory) :
  dry_run self = true ->
  connect env self
  = (Val true, self,
     [Print "✓ [DRY-RUN] Would connect as: arn:aws:iam::123456789012:user/mock-user";
      Print "✓ [DRY-RUN] Would use account: 123456789012"]).
Proof.
  intros Hdry. unfold connect. unfold bind at 1. cbn [get_self].
  rewrite Hdry. reflexivity.
Qed.

Lemma connect_live (env : Env) (self : Inventory) :
  dry_run self = false ->
  exists t,
    connect env self
    = (Val (match sts_get_caller_identity env (new_session (profile_name self)) with
            | inr _ => true
            | inl _ => false
            end),
       with_session self (PySession (new_session (profile_name self))), t)
    /\ calls t = [GetCallerIdentity (new_session (profile_name self))]
    /\ files_written t = [].
Proof.
  intros Hdry. unfold connect. unfold bind at 1. cbn [get_self].
  rewrite Hdry.
  unfold bind at 1. cbn [set_session].
  unfold bind at 1. cbn [get_self].
  unfold bind at 1. cbn [with_session session client ret].
  unfold bind at 1. cbn [call emit].
  destruct (sts_get_caller_identity env (new_session (profile_name self)))
    as [[|e]|identity]; cbn; eexists; (split; [reflexivity|split; reflexivity]).
Qed.

(** ** [list_accounts] *)

Lemma list_accounts_page (page : list RawAccount) (acc : list Account) :
  fold_left list_accounts_step page acc
  = acc ++ map account_entry (filter keeps_account page).
Proof.
  revert acc. induction page as [|r page IH]; intros acc; simpl.
  - now rewrite app_nil_r.
  - rewrite IH. unfold list_accounts_step.
    destruct (keeps_account r); simpl; [now rewrite <- app_assoc | reflexivity].
Qed.

Lemma list_accounts_loop_kept (delivered_pages : list (list RawAccount))
    (acc : list Account) :
  list_accounts_loop acc delivered_pages = acc ++ kept_accounts delivered_pages.
Proof.
  unfold list_accounts_loop, kept_accounts. revert acc.
  induction delivered_pages as [|p ps IH]; intros acc; simpl.
  - now rewrite app_nil_r.
  - rewrite IH, list_accounts_page, filter_app, map_app, app_assoc. reflexivity.
Qed.

Lemma list_accounts_dry (env : Env) (self : Inventory) :
  dry_run self = true ->
  exists t,
    list_accounts env self = (Val mock_accounts, self, t)
    /\ calls t = [] /\ files_written t = [].
Proof.
  intros Hdry. unfold list_accounts. unfold bind at 1. cbn [get_self].
  rewrite Hdry. cbn. eexists; repeat split.
Qed.

Lemma list_accounts_live (env : Env) (s : Session) (self : Inventory) :
  dry_run self = false ->
  session self = PySession s ->
  exists t,
    list_accounts env self
    = (Val (match failure (org_list_accounts env s) with
            | None => kept_accounts (pages (org_list_accounts env s))
            | Some _ => []
            end), self, t)
    /\ calls t = [ListAccounts s]
    /\ files_written t = [].
Proof.
  intros Hdry Hs. unfold list_accounts. unfold bind at 1. cbn [get_self].
  rewrite Hdry, Hs.
  unfold bind at 1. cbn [client ret].
  unfold bind at 1. cbn [print emit].
  unfold bind at 1. cbn [call emit].
  rewrite list_accounts_loop_kept. cbn [app].
  destruct (failure (org_list_accounts env s)) as [e|].
  - destruct (String.eqb (Code e) "AccessDeniedException"); cbn;
      eexists; (split; [reflexivity|split; reflexivity]).
  - cbn. eexists; (split; [reflexivity|split; reflexivity]).
Qed.

(** ** [export_to_csv] *)

Lemma dict_record_values (row : InventoryRow) :
  dict_record fieldnames row = row_values row.
Proof. reflexivity. Qed.

Lemma calls_prints A (f : A -> string) (l : list A) :
  calls (map (fun x => Print (f x)) l) = [].
Proof. induction l; simpl; auto. Qed.

Lemma files_written_prints A (f : A -> string) (l : list A) :
  files_written (map (fun x => Print (f x)) l) = [].
Proof. induction l; simpl; auto. Qed.

Lemma export_to_csv_run (env : Env) (results : list InventoryRow) (self : Inventory) :
  exists t,
    export_to_csv env results self = (Val (output_name env), self, t)
    /\ calls t = []
    /\ files_written t
       = (if dry_run self then []
          else match results with
               | [] => []
               | _ :: _ => [(output_name env, fieldnames :: map row_values results)]
               end).
Proof.
  unfold export_to_csv. unfold bind at 1. cbn [get_self].
  destruct (dry_run self).
  - unfold bind at 1. cbn [print emit].
    unfold bind at 1. cbn [print emit].
    unfold bind at 1.
    destruct results as [|r results].
    + cbn. eexists; repeat split.
    + cbn [truthy_list when]. unfold bind at 1. cbn [print emit].
      rewrite for_each_print. cbn [ret app].
      eexists; split; [reflexivity|]. split.
      * cbn [calls]. rewrite calls_app, calls_prints. reflexivity.
      * cbn [files_written]. rewrite files_written_app, files_written_prints.
        reflexivity.
  - destruct results as [|r results].
    + cbn. eexists; repeat split.
    + cbn [truthy_list]. unfold bind. cbn [print emit write_csv ret app].
      eexists; split; [reflexivity|]. split; [reflexivity|].
      cbn [files_written]. reflexivity.
Qed.

(** ** [run] on a live run *)

Lemma if_print (b : bool) (x y : string) (self : Inventory) :
  (if b then print x else print y) self
  = (Val tt, self, [Print (if b then x else y)]).
Proof. destruct b; reflexivity. Qed.

Lemma run_live (env : Env) (self : Inventory) :
  dry_run self = false ->
  let s := new_session (profile_name self) in
  let self' := with_session self (PySession s) in
  let accounts := match failure (org_list_accounts env s) with
                  | None => kept_accounts (pages (org_list_accounts env s))
                  | Some _ => []
                  end in
  let rows := map row_of_pair (observed_pairs env self' s accounts) in
  exists t,
    run env self
    = (match sts_get_caller_identity env s with
       | inl _ => Exited 1%Z
       | inr _ => match accounts with [] => Exited 1%Z | _ :: _ => Val tt end
       end, self', t)
    /\ calls t
       = GetCallerIdentity s
         :: match sts_get_caller_identity env s with
            | inl _ => []
            | inr _ => ListAccounts s :: flat_map (account_calls env self' s) accounts
            end
    /\ files_written t
       = match sts_get_caller_identity env s with
         | inl _ => []
         | inr _ => match rows with
                    | [] => []
                    | _ :: _ => [(output_name env, fieldnames :: map row_values rows)]
                    end
         end
    /\ match sts_get_caller_identity env s, accounts with
       | inr _, _ :: _ => In (Print "Scan complete!") t
       | _, _ => True
       end.
Proof.
  intros Hdry s self' accounts rows.
  destruct (connect_live env self Hdry) as [tc [Hc [Cc Fc]]].
  fold s in Hc, Cc. fold self' in Hc.
  assert (Hdry' : dry_run self' = false) by exact Hdry.
  assert (Hs' : session self' = PySession s) by reflexivity.
  destruct (@list_accounts_live env s self' Hdry' Hs') as [tl [Hl [Cl Fl]]].
  fold accounts in Hl.
  destruct (@scan_accounts_live env s accounts self' Hdry' Hs')
    as [ts [Hsc [Cs [Fs _]]]].
  fold rows in Hsc.
  destruct (export_to_csv_run env rows self') as [te [He [Ce Fe]]].
  rewrite Hdry' in Fe.
  unfold run.
  destruct (sts_get_caller_identity env s) as [f|identity].
  - eexists. split; [|split; [|split]].
    + eapply bind_eq; [reflexivity|].
      eapply bind_eq; [reflexivity|].
      eapply bind_eq; [reflexivity|].
      eapply bind_eq; [rewrite Hdry; reflexivity|].
      eapply bind_eq; [reflexivity|].
      eapply bind_eq; [apply if_print|].
      eapply bind_eq; [reflexivity|].
      eapply bind_eq; [exact Hc|].
      apply bind_exit. reflexivity.
    + cbn [app calls]. rewrite !calls_app, Cc. reflexivity.
    + cbn [app files_written]. rewrite !files_written_app, Fc. reflexivity.
    + exact I.
  - destruct accounts as [|a accounts'] eqn:Eacc.
    + eexists. split; [|split; [|split]].
      * eapply bind_eq; [reflexivity|].
        eapply bind_eq; [reflexivity|].
        eapply bind_eq; [reflexivity|].
        eapply bind_eq; [rewrite Hdry; reflexivity|].
        eapply bind_eq; [reflexivity|].
        eapply bind_eq; [apply if_print|].
        eapply bind_eq; [reflexivity|].
        eapply bind_eq; [exact Hc|].
        eapply bind_eq; [reflexivity|].
        eapply bind_eq; [exact Hl|].
        apply bind_exit. reflexivity.
      * cbn [app calls]. rewrite !calls_app, Cc, Cl. reflexivity.
      * cbn [app files_written]. rewrite !files_written_app, Fc, Fl. reflexivity.
      * exact I.
    + eexists. split; [|split; [|split]].
      * eapply bind_eq; [reflexivity|].
        eapply bind_eq; [reflexivity|].
        eapply bind_eq; [reflexivity|].
        eapply bind_eq; [rewrite Hdry; reflexivity|].
        eapply bind_eq; [reflexivity|].
        eapply bind_eq; [apply if_print|].
        eapply bind_eq; [reflexivity|].
        eapply bind_eq; [exact Hc|].
        eapply bind_eq; [reflexivity|].
        eapply bind_eq; [exact Hl|].
        eapply bind_eq; [reflexivity|].
        eapply bind_eq; [exact Hsc|].
        eapply bind_eq; [exact He|].
        reflexivity.
      * cbn [app calls]. rewrite !calls_app, Cc, Cl, Cs, Ce. cbn [calls app].
        now rewrite app_nil_r.
      * cbn [app files_written]. rewrite !files_written_app, Fc, Fl, Fs, Fe.
        cbn [files_written app]. now rewrite app_nil_r.
      * rewrite !in_app_iff. cbn.
        repeat first [left; reflexivity | left; left; reflexivity | right].
Qed.

(** ** [run] on a dry run *)

Lemma run_dry (env : Env) (self : Inventory) :
  dry_run self = true ->
  exists t,
    run env self = (Val tt, self, t)
    /\ calls t = []
    /\ files_written t = []
    /\ In (Print "Scan complete!") t.
Proof.
  intros Hdry.
  destruct (@list_accounts_dry env self Hdry) as [tl [Hl [Cl Fl]]].
  destruct (@scan_accounts_dry env mock_accounts self Hdry) as [ts [Hsc [Cs [Fs _]]]].
  destruct (export_to_csv_run env (map row_of_pair (mock_pairs mock_accounts)) self)
    as [te [He [Ce Fe]]].
  rewrite Hdry in Fe.
  unfold run. eexists. split; [|split; [|split]].
  - eapply bind_eq; [reflexivity|].
    eapply bind_eq; [reflexivity|].
    eapply bind_eq; [reflexivity|].
    eapply bind_eq; [rewrite Hdry; reflexivity|].
    eapply bind_eq; [reflexivity|].
    eapply bind_eq; [apply if_print|].
    eapply bind_eq; [reflexivity|].
    eapply bind_eq; [apply connect_dry; exact Hdry|].
    eapply bind_eq; [reflexivity|].
    eapply bind_eq; [exact Hl|].
    eapply bind_eq; [reflexivity|].
    eapply bind_eq; [exact Hsc|].
    eapply bind_eq; [exact He|].
    reflexivity.
  - cbn [app calls]. rewrite !calls_app, Cl, Cs, Ce. reflexivity.
  - cbn [app files_written]. rewrite !files_written_app, Fl, Fs, Fe. reflexivity.
  - rewrite !in_app_iff. cbn.
    repeat first [left; reflexivity | left; left; reflexivity | right].
Qed.

(** * The claims *)

Ltac in_trace := cbn; repeat first [left; reflexivity | right].

(** ** C1: the header of the exported file *)

(** C1, as stated, fails: a live run over one active account without file
    systems reaches the Reporter and ends with status 0, yet creates no
    file, so there is no header row at all. *)
Lemma empty_inventory_writes_no_file :
  exit_status (result_of (main empty_inventory live_args)) = 0%Z
  /\ In (Print (nl ++ "⚠ No FSX file systems found in any account"))
        (trace_of (main empty_inventory live_args))
  /\ files_written (trace_of (main empty_inventory live_args)) = [].
Proof.
  split; [reflexivity|]. split; [|reflexivity].
  in_trace.
Qed.

(** C1 (amended): the Reporter always returns the file name without failing;
    every file it writes starts with the header of exactly six columns
    Organization Name, GovCloud Account ID, FSX ID, FSX Type, Region,
    Lifecycle, followed by one six-field record per row; a live run with at
    least one row writes exactly that file; with an empty row sequence no
    file is written at all, and none on a simulation. *)
Theorem csv_header_when_file_written (env : Env) (self : Inventory)
    (results : list InventoryRow) :
  result_of (export_to_csv env results self) = Val (output_name env)
  /\ (forall f recs,
        In (f, recs) (files_written (trace_of (export_to_csv env results self))) ->
        exists body,
          recs = ["Organization Name"; "GovCloud Account ID"; "FSX ID"; "FSX Type";
                  "Region"; "Lifecycle"] :: body
          /\ body = map row_values results
          /\ length body = length results
          /\ Forall (fun rec => length rec = 6) body)
  /\ (dry_run self = false -> results <> [] ->
      files_written (trace_of (export_to_csv env results self))
      = [(output_name env, fieldnames :: map row_values results)])
  /\ (results = [] ->
      files_written (trace_of (export_to_csv env results self)) = [])
  /\ (dry_run self = true ->
      files_written (trace_of (export_to_csv env results self)) = []).
Proof.
  destruct (export_to_csv_run env results self) as [t [H [_ F]]].
  rewrite H. unfold result_of, trace_of. cbn [fst snd].
  split; [reflexivity|]. split; [|split; [|split]].
  - intros f recs Hin. rewrite F in Hin.
    destruct (dry_run self); [contradiction|].
    destruct results as [|r results]; [contradiction|].
    destruct Hin as [Hin|[]]. injection Hin as Hf Hrecs. subst f recs.
    exists (map row_values (r :: results)).
    split; [reflexivity|]. split; [reflexivity|].
    split; [apply length_map|].
    apply Forall_forall. intros rec Hrec.
    apply in_map_iff in Hrec. destruct Hrec as [row [<- _]]. reflexivity.
  - intros Hdry Hne. rewrite F, Hdry.
    destruct results; [contradiction|reflexivity].
  - intros ->. rewrite F. destruct (dry_run self); reflexivity.
  - intros Hdry. rewrite F, Hdry. reflexivity.
Qed.

Lemma csv_header_when_file_written_witness :
  files_written (trace_of (export_to_csv denied_then_two rows_of_A live_self))
  = [(output_name denied_then_two, fieldnames :: map row_values rows_of_A)]
  /\ files_written (trace_of (export_to_csv denied_then_two [] live_self)) = []
  /\ files_written (trace_of (export_to_csv denied_then_two rows_of_A
                                            (inventory no_flags_dry_run))) = [].
Proof.
  split; [|split].
  - apply (proj1 (proj2 (proj2
             (csv_header_when_file_written denied_then_two live_self rows_of_A)))).
    + reflexivity.
    + discriminate.
  - apply (proj1 (proj2 (proj2 (proj2
             (csv_header_when_file_written denied_then_two live_self []))))).
    reflexivity.
  - apply (proj2 (proj2 (proj2 (proj2
             (csv_header_when_file_written denied_then_two
                (inventory no_flags_dry_run) rows_of_A))))).
    reflexivity.
Defined.

(** ** C2: the filter of the Account Lister *)

Lemma list_accounts_cases (env : Env) (self : Inventory) (l : list Account) :
  result_of (list_accounts env self) = Val l ->
  (dry_run self = true /\ l = mock_accounts)
  \/ (dry_run self = false
      /\ exists s, session self = PySession s
         /\ l = match failure (org_list_accounts env s) with
                | None => kept_accounts (pages (org_list_accounts env s))
                | Some _ => []
                end).
Proof.
  intros H. destruct (dry_run self) eqn:Hdry.
  - left. split; [reflexivity|].
    destruct (@list_accounts_dry env self Hdry) as [t [Hl _]].
    rewrite Hl in H. now inversion H.
  - right. split; [reflexivity|].
    destruct (session self) as [|s|str] eqn:Hs.
    + unfold list_accounts in H. unfold bind at 1 in H. cbn [get_self] in H.
      rewrite Hdry, Hs in H. discriminate H.
    + exists s. split; [reflexivity|].
      destruct (@list_accounts_live env s self Hdry Hs) as [t [Hl _]].
      rewrite Hl in H. now inversion H.
    + unfold list_accounts in H. unfold bind at 1 in H. cbn [get_self] in H.
      rewrite Hdry, Hs in H. discriminate H.
Qed.

Lemma keeps_account_entry (raw : RawAccount) :
  keeps_account raw = true ->
  acct_status (account_entry raw) = "ACTIVE"
  \/ occurs_ignoring_case "govcloud" (acct_name (account_entry raw))
  \/ occurs_ignoring_case "govcloud" (acct_email (account_entry raw)).
Proof.
  unfold keeps_account. rewrite !orb_true_iff. intros [[H|H]|H].
  - right; left. apply substring_in_lower; [reflexivity | exact H].
  - right; right. apply substring_in_lower; [reflexivity | exact H].
  - left. cbn [account_entry acct_status].
    destruct (Status raw) as [st|]; [|discriminate H].
    cbn in H. apply String.eqb_eq in H. now subst.
Qed.

(** C2: every account [list_accounts] emits has status ACTIVE or carries
    the marker govcloud, case ignored, in its name or its email; an account
    with neither is not in the output. *)
Theorem list_accounts_filter (env : Env) (self : Inventory) (l : list Account) :
  result_of (list_accounts env self) = Val l ->
  (forall a, In a l ->
     acct_status a = "ACTIVE"
     \/ occurs_ignoring_case "govcloud" (acct_name a)
     \/ occurs_ignoring_case "govcloud" (acct_email a))
  /\ (forall raw : RawAccount,
        Status raw <> Some "ACTIVE" ->
        ~ occurs_ignoring_case "govcloud" (get_default (Name raw) EmptyString) ->
        ~ occurs_ignoring_case "govcloud" (get_default (Email raw) EmptyString) ->
        ~ In (account_entry raw) l).
Proof.
  intros H.
  assert (P : forall a, In a l ->
     acct_status a = "ACTIVE"
     \/ occurs_ignoring_case "govcloud" (acct_name a)
     \/ occurs_ignoring_case "govcloud" (acct_email a)).
  { destruct (list_accounts_cases env self H) as [[_ ->] | [_ [s [_ ->]]]].
    - intros a Ha. left.
      repeat (destruct Ha as [<-|Ha]; [reflexivity|]). contradiction.
    - destruct (failure (org_list_accounts env s)); [intros a []|].
      intros a Ha. unfold kept_accounts in Ha.
      apply in_map_iff in Ha. destruct Ha as [raw [<- Hraw]].
      apply filter_In in Hraw. now apply keeps_account_entry. }
  split; [exact P|].
  intros raw Hst Hn He Hin.
  destruct (P _ Hin) as [Q|[Q|Q]].
  - cbn [account_entry acct_status] in Q.
    destruct (Status raw) as [st|]; cbn in Q; [|discriminate Q].
    apply Hst. now rewrite Q.
  - exact (Hn Q).
  - exact (He Q).
Qed.

Lemma list_accounts_filter_witness :
  result_of (list_accounts mixed_listing live_self)
  = Val [account_entry account_A;
         account_entry (raw_account "000011112222" "Old-GovCloud" "old@example.com"
                                    "SUSPENDED")]
  /\ Forall (fun a => acct_status a = "ACTIVE"
                      \/ occurs_ignoring_case "govcloud" (acct_name a)
                      \/ occurs_ignoring_case "govcloud" (acct_email a))
            [account_entry account_A;
             account_entry (raw_account "000011112222" "Old-GovCloud" "old@example.com"
                                        "SUSPENDED")].
Proof.
  split; [reflexivity|].
  apply Forall_forall.
  apply (@list_accounts_filter mixed_listing live_self _ eq_refl).
Defined.

(** ** C3: a failing region aborts nothing *)

Example denied_then_two_scan :
  result_of (scan_accounts denied_then_two [account_entry account_A] live_self)
  = Val rows_of_A.
Proof. reflexivity. Qed.

Lemma bind_ext A B (m m' : M A) (f f' : A -> M B) :
  (forall self, m self = m' self) ->
  (forall a self, f a self = f' a self) ->
  forall self, bind m f self = bind m' f' self.
Proof.
  intros Hm Hf self. unfold bind. rewrite Hm.
  destruct (m' self) as [[[a|e|c] self1] t1]; [now rewrite Hf | reflexivity | reflexivity].
Qed.

Lemma fsx_region_any_never_breaks (env : Env) (v : pyval) (r : string)
    (acc : list FileSystemRecord) (self : Inventory) :
  fsx_region_any env never_breaks v r acc self = fsx_region env v r acc self.
Proof.
  unfold fsx_region_any. destruct v as [|s|str].
  - reflexivity.
  - unfold bind at 1. cbn [client ret never_breaks].
    destruct (fsx_region env (PySession s) r acc self) as [[o self2] t2]. reflexivity.
  - reflexivity.
Qed.

Lemma fsx_regions_any_never_breaks (env : Env) (v : pyval) (regions : list string)
    (acc : list FileSystemRecord) (self : Inventory) :
  fsx_regions_any env never_breaks v regions acc self = fsx_regions env v regions acc self.
Proof.
  revert acc self. induction regions as [|r regions IH]; intros acc self;
    [reflexivity|].
  cbn [fsx_regions_any fsx_regions]. apply bind_ext.
  - intros self0. apply fsx_region_any_never_breaks.
  - intros acc' self0. apply IH.
Qed.

Lemma list_fsx_systems_any_never_breaks (env : Env) (v : pyval) (account : Account)
    (self : Inventory) :
  list_fsx_systems_any env never_breaks v account self
  = list_fsx_systems env v account self.
Proof.
  destruct (dry_run self) eqn:Hdry.
  - unfold list_fsx_systems_any. unfold bind at 1. cbn [get_self]. rewrite Hdry.
    destruct (list_fsx_systems env v account self) as [[o self2] t2]. reflexivity.
  - unfold list_fsx_systems_any, list_fsx_systems. unfold bind. cbn [get_self].
    rewrite Hdry, fsx_regions_any_never_breaks. reflexivity.
Qed.

Lemma scan_account_any_never_breaks (env : Env) (a : Account)
    (results : list InventoryRow) (self : Inventory) :
  scan_account_any env never_breaks a results self = scan_account env a results self.
Proof.
  unfold scan_account_any, scan_account.
  apply bind_ext; [reflexivity|]. intros _ self0.
  apply bind_ext; [reflexivity|]. intros v self1.
  apply bind_ext; [reflexivity|]. intros [v'|] self2; [|reflexivity].
  apply bind_ext; [|reflexivity].
  intros self3. apply list_fsx_systems_any_never_breaks.
Qed.

(** Without an exception outside [ClientError] the scan is [scan_accounts]. *)
Lemma scan_accounts_any_never_breaks (env : Env) (accounts : list Account)
    (self : Inventory) :
  scan_accounts_any env never_breaks accounts self = scan_accounts env accounts self.
Proof.
  unfold scan_accounts_any, scan_accounts.
  apply bind_ext; [reflexivity|]. intros _ self0. generalize (@nil InventoryRow).
  revert self0. induction accounts as [|a accounts IH]; intros self0 results;
    [reflexivity|].
  cbn [scan_loop_any scan_loop]. apply bind_ext.
  - intros self1. apply scan_account_any_never_breaks.
  - intros results' self1. apply IH.
Qed.

(** C3, as stated, fails for a per-region error that is not a [ClientError].
    With accounts A and B, the first region denied by a [ClientError] and the
    second delivering two records, the scan returns the two records for each
    account.  When instead the query of the first region raises
    EndpointConnectionError, the scan stops there with that exception: the
    second region is never queried, account B is never processed and no row
    is returned. *)
Lemma connection_error_aborts_scan :
  result_of (scan_accounts_any denied_then_two never_breaks
               [account_entry account_A; account_entry account_B] live_self)
  = Val (rows_of_A
         ++ map (inventory_row "Account-B" "444455556666")
                (map (fsx_entry "us-gov-east-1")
                     [raw_fs "fs-0a" "LUSTRE"; raw_fs "fs-0b" "ONTAP"]))
  /\ result_of (scan_accounts_any denied_then_two west_unreachable
                  [account_entry account_A; account_entry account_B] live_self)
     = Raised (SdkError "EndpointConnectionError")
  /\ calls (trace_of (scan_accounts_any denied_then_two west_unreachable
                        [account_entry account_A; account_entry account_B] live_self))
     = [AssumeRole DefaultSession
          "arn:aws-us-gov:iam::111122223333:role/OrganizationAccountAccessRole"
          "fsx-inventory-111122223333";
        DescribeFileSystems DefaultSession "us-gov-west-1"].
Proof. repeat split. Qed.

(** C3 (amended): on a live scan, whatever [ClientError] any region answers to any
    account (access denied or any other code), the scan returns its rows,
    every region of every account is still queried, and every file system a
    region delivers to an account is in the output.  In the scenario of
    account A (first region denied, second region two records) the output
    holds those two records ([denied_then_two_scan]). *)
Theorem region_failure_does_not_abort (env : Env) (self : Inventory) (s : Session)
    (accounts : list Account) :
  dry_run self = false ->
  session self = PySession s ->
  exists rows,
    result_of (scan_accounts env accounts self) = Val rows
    /\ calls (trace_of (scan_accounts env accounts self))
       = flat_map (account_calls env self s) accounts
    /\ forall a region_name fs,
         In a accounts ->
         In region_name (govcloud_regions self) ->
         In fs (delivered env (session_for env self s a) region_name) ->
         In (inventory_row (acct_name a) (acct_id a) (fsx_entry region_name fs)) rows.
Proof.
  intros Hdry Hs.
  destruct (@scan_accounts_live env s accounts self Hdry Hs) as [t [H [C _]]].
  rewrite H. unfold result_of, trace_of. cbn [fst snd].
  eexists. split; [reflexivity|]. split; [exact C|].
  intros a r fs Ha Hr Hfs.
  apply in_map_iff. exists (a, fsx_entry r fs). split; [reflexivity|].
  unfold observed_pairs. apply in_flat_map. exists a. split; [exact Ha|].
  apply in_map. unfold observed_records. apply in_flat_map.
  exists r. split; [exact Hr|]. now apply in_map.
Qed.

Lemma region_failure_does_not_abort_witness :
  failure (fsx_describe_file_systems denied_then_two DefaultSession "us-gov-west-1")
  = Some (client_error "AccessDenied")
  /\ exists rows,
       result_of (scan_accounts denied_then_two [account_entry account_A] live_self)
       = Val rows
       /\ Forall (fun row => In row rows) rows_of_A.
Proof.
  split; [reflexivity|].
  destruct (@region_failure_does_not_abort denied_then_two live_self DefaultSession
              [account_entry account_A] eq_refl eq_refl) as [rows [H [_ Hin]]].
  exists rows. split; [exact H|].
  repeat constructor.
  - apply (Hin (account_entry account_A) "us-gov-east-1" (raw_fs "fs-0a" "LUSTRE"));
      cbn; auto.
  - apply (Hin (account_entry account_A) "us-gov-east-1" (raw_fs "fs-0b" "ONTAP"));
      cbn; auto.
Defined.

(** ** C4: a role that cannot be assumed *)

(** C4: on a live scan, when the role of a listed account cannot be assumed,
    the scan of that account still returns, having queried every region with
    the caller's own session and attributed what that session sees to the
    account; the scan of all accounts returns as well. *)
Theorem role_failure_falls_back (env : Env) (self : Inventory) (s : Session)
    (accounts : list Account) (a : Account) (e : ClientError)
    (results : list InventoryRow) :
  dry_run self = false ->
  session self = PySession s ->
  In a accounts ->
  sts_assume_role env s (role_arn_of (acct_id a) (role_name self))
                  ("fsx-inventory-" ++ acct_id a) = inl e ->
  (exists rows, result_of (scan_accounts env accounts self) = Val rows)
  /\ result_of (scan_account env a results self)
     = Val (results ++ map (inventory_row (acct_name a) (acct_id a))
                           (observed_records env s (govcloud_regions self)))
  /\ calls (trace_of (scan_account env a results self))
     = AssumeRole s (role_arn_of (acct_id a) (role_name self))
                  ("fsx-inventory-" ++ acct_id a)
       :: map (DescribeFileSystems s) (govcloud_regions self)
  /\ (forall r, In r (govcloud_regions self) ->
        In (DescribeFileSystems s r)
           (calls (trace_of (scan_accounts env accounts self)))).
Proof.
  intros Hdry Hs Ha He.
  assert (Hfor : session_for env self s a = s).
  { unfold session_for. now rewrite He. }
  destruct (@scan_accounts_live env s accounts self Hdry Hs) as [t [H [C _]]].
  destruct (@scan_account_live env s a results self Hdry Hs) as [t1 [H1 [C1 _]]].
  unfold account_calls in C1. rewrite Hfor in H1, C1.
  rewrite H, H1. unfold result_of, trace_of. cbn [fst snd].
  split; [eexists; reflexivity|]. split; [reflexivity|]. split.
  - exact C1.
  - intros r Hr. rewrite C. apply in_flat_map. exists a. split; [exact Ha|].
    unfold account_calls. right. rewrite Hfor. now apply in_map.
Qed.

Lemma role_failure_falls_back_witness :
  calls (trace_of (scan_account denied_then_two (account_entry account_A) [] live_self))
  = [AssumeRole DefaultSession
       "arn:aws-us-gov:iam::111122223333:role/OrganizationAccountAccessRole"
       "fsx-inventory-111122223333";
     DescribeFileSystems DefaultSession "us-gov-west-1";
     DescribeFileSystems DefaultSession "us-gov-east-1"].
Proof.
  apply (@role_failure_falls_back denied_then_two live_self DefaultSession
           [account_entry account_A] (account_entry account_A)
           (client_error "AccessDenied") []).
  - reflexivity.
  - reflexivity.
  - left; reflexivity.
  - reflexivity.
Defined.

(** ** C10: no account is skipped on a live run *)

Lemma describe_all (s : Session) (regions : list string) :
  length (filter is_describe (map (DescribeFileSystems s) regions)) = length regions.
Proof.
  induction regions as [|r rs IH]; [reflexivity|].
  cbn. now rewrite IH.
Qed.

Lemma describe_count (env : Env) (self : Inventory) (s : Session)
    (accounts : list Account) :
  length (filter is_describe (flat_map (account_calls env self s) accounts))
  = length accounts * length (govcloud_regions self).
Proof.
  induction accounts as [|a accounts IH]; [reflexivity|].
  cbn [flat_map]. rewrite filter_app, length_app, IH.
  unfold account_calls. cbn [filter is_describe length Nat.mul].
  now rewrite describe_all.
Qed.

(** C10: on a live scan the choice of the session never ends in the skip
    branch, no skip message is printed, every listed account has each region
    queried, and the number of storage-service queries is the number of
    accounts times the number of regions. *)
Theorem no_account_skipped (env : Env) (self : Inventory) (s : Session)
    (accounts : list Account) :
  dry_run self = false ->
  session self = PySession s ->
  (forall v account_id,
     exists v', settle_session v account_id self = (Val (Some v'), self, []))
  /\ Forall (fun e => ~ is_skip_message e) (trace_of (scan_accounts env accounts self))
  /\ (forall a r, In a accounts -> In r (govcloud_regions self) ->
        In (DescribeFileSystems (session_for env self s a) r)
           (calls (trace_of (scan_accounts env accounts self))))
  /\ length (filter is_describe (calls (trace_of (scan_accounts env accounts self))))
     = length accounts * length (govcloud_regions self).
Proof.
  intros Hdry Hs.
  destruct (@scan_accounts_live env s accounts self Hdry Hs) as [t [H [C [_ K]]]].
  rewrite H. unfold trace_of. cbn [snd].
  split; [|split; [exact K|split]].
  - intros v i. eexists. apply settle_session_live. exact Hdry.
  - intros a r Ha Hr. rewrite C. apply in_flat_map. exists a. split; [exact Ha|].
    unfold account_calls. right. now apply in_map.
  - rewrite C. apply describe_count.
Qed.

Lemma no_account_skipped_witness :
  length (filter is_describe
            (calls (trace_of (scan_accounts denied_then_two
                                [account_entry account_A] live_self))))
  = 1 * 2.
Proof.
  apply (@no_account_skipped denied_then_two live_self DefaultSession
           [account_entry account_A]); reflexivity.
Defined.

(** ** C5: the exit status *)

Lemma when_print (b : bool) (x : string) (self : Inventory) :
  when b (print x) self = (Val tt, self, if b then [Print x] else []).
Proof. destruct b; reflexivity. Qed.

Lemma run_outcome (env : Env) (self : Inventory) :
  result_of (run env self)
  = (if authenticates env self
     then if truthy_list (accounts_listed env self) then Val tt else Exited 1%Z
     else Exited 1%Z)
  /\ (result_of (run env self) = Val tt ->
      In (Print "Scan complete!") (trace_of (run env self))).
Proof.
  destruct (dry_run self) eqn:Hdry.
  - destruct (@run_dry env self Hdry) as [t [H [_ [_ Hin]]]].
    destruct (@list_accounts_dry env self Hdry) as [tl [Hl _]].
    unfold authenticates, accounts_listed.
    rewrite (connect_dry env self Hdry). unfold result_of, self_of. cbn [fst snd].
    rewrite Hl, H. cbn [fst snd]. split; [reflexivity | intros _; exact Hin].
  - destruct (@run_live env self Hdry) as [t [H [_ [_ Hin]]]].
    destruct (connect_live env self Hdry) as [tc [Hc _]].
    assert (Hdry' : dry_run (with_session self
                               (PySession (new_session (profile_name self)))) = false)
      by exact Hdry.
    destruct (@list_accounts_live env (new_session (profile_name self)) _ Hdry' eq_refl)
      as [tl [Hl _]].
    unfold authenticates, accounts_listed.
    rewrite Hc. unfold result_of, self_of. cbn [fst snd].
    rewrite Hl, H. cbn [fst snd].
    destruct (sts_get_caller_identity env (new_session (profile_name self))).
    + split; [reflexivity | discriminate].
    + destruct (match failure (org_list_accounts env (new_session (profile_name self)))
                with
                | None => kept_accounts
                            (pages (org_list_accounts env
                                      (new_session (profile_name self))))
                | Some _ => []
                end).
      * split; [reflexivity | discriminate].
      * split; [reflexivity | intros _; exact Hin].
Qed.






(** ** C9: the listing is denied *)

Lemma list_accounts_denied (env : Env) (s : Session) (self : Inventory)
    (e : ClientError) :
  dry_run self = false ->
  session self = PySession s ->
  failure (org_list_accounts env s) = Some e ->
  Code e = "AccessDeniedException" ->
  list_accounts env self
  = (Val [], self,
     [Print (nl ++ "→ Listing accounts in organization...");
      Call (ListAccounts s);
      Print "ERROR: No permission to access AWS Organizations.";
      Print "This script requires organizations:ListAccounts permission."]).
Proof.
  intros Hdry Hs Hf Hc. unfold list_accounts. unfold bind at 1. cbn [get_self].
  rewrite Hdry, Hs.
  unfold bind at 1. cbn [client ret].
  unfold bind at 1. cbn [print emit].
  unfold bind at 1. cbn [call emit].
  rewrite Hf, Hc. reflexivity.
Qed.

Lemma run_stops_without_accounts (env : Env) (self self' : Inventory)
    (tc tl : list event) :
  connect env self = (Val true, self', tc) ->
  list_accounts env self' = (Val [], self', tl) ->
  exists t,
    run env self = (Exited 1%Z, self', t) /\ (forall e, In e tl -> In e t).
Proof.
  intros Hc Hl. unfold run. eexists. split.
  - eapply bind_eq; [reflexivity|].
    eapply bind_eq; [reflexivity|].
    eapply bind_eq; [reflexivity|].
    eapply bind_eq; [apply when_print|].
    eapply bind_eq; [reflexivity|].
    eapply bind_eq; [apply if_print|].
    eapply bind_eq; [reflexivity|].
    eapply bind_eq; [exact Hc|].
    eapply bind_eq; [reflexivity|].
    eapply bind_eq; [exact Hl|].
    apply bind_exit. reflexivity.
  - intros e He. rewrite !in_app_iff. tauto.
Qed.

(** C9: when the organization listing fails with AccessDeniedException,
    whatever pages were delivered before, [list_accounts] prints the two
    lines of the permission hint and returns the empty list; the run shows
    the hint and ends with status 1. *)
Theorem listing_access_denied (env : Env) (args : Args) (identity : Identity)
    (e : ClientError) :
  arg_dry_run args = false ->
  sts_get_caller_identity env (new_session (arg_profile args)) = inr identity ->
  failure (org_list_accounts env (new_session (arg_profile args))) = Some e ->
  Code e = "AccessDeniedException" ->
  list_accounts env (self_of (connect env (inventory args)))
  = (Val [], self_of (connect env (inventory args)),
     [Print (nl ++ "→ Listing accounts in organization...");
      Call (ListAccounts (new_session (arg_profile args)));
      Print "ERROR: No permission to access AWS Organizations.";
      Print "This script requires organizations:ListAccounts permission."])
  /\ In (Print "ERROR: No permission to access AWS Organizations.")
        (trace_of (main env args))
  /\ In (Print "This script requires organizations:ListAccounts permission.")
        (trace_of (main env args))
  /\ exit_status (result_of (main env args)) = 1%Z.
Proof.
  intros Hdry Hid Hf Hc.
  assert (Hd : dry_run (inventory args) = false) by exact Hdry.
  destruct (connect_live env (inventory args) Hd) as [tc [Hcon _]].
  change (profile_name (inventory args)) with (arg_profile args) in Hcon.
  rewrite Hid in Hcon.
  assert (Hl : list_accounts env (self_of (connect env (inventory args)))
               = (Val [], self_of (connect env (inventory args)),
                  [Print (nl ++ "→ Listing accounts in organization...");
                   Call (ListAccounts (new_session (arg_profile args)));
                   Print "ERROR: No permission to access AWS Organizations.";
                   Print "This script requires organizations:ListAccounts permission."])).
  { rewrite Hcon. unfold self_of. cbn [fst snd].
    apply list_accounts_denied with (e := e); auto. }
  split; [exact Hl|].
  rewrite Hcon in Hl. unfold self_of in Hl. cbn [fst snd] in Hl.
  destruct (@run_stops_without_accounts env _ _ _ _ Hcon Hl) as [t [Hrun Hin]].
  unfold main. rewrite Hrun. unfold trace_of, result_of. cbn [fst snd].
  split; [|split; [|reflexivity]]; apply Hin; cbn; auto.
Qed.

Lemma listing_access_denied_witness :
  result_of (list_accounts listing_denied (self_of (connect listing_denied
                                                       (inventory live_args))))
  = Val []
  /\ length (concat (pages (org_list_accounts listing_denied DefaultSession))) = 2
  /\ exit_status (result_of (main listing_denied live_args)) = 1%Z.
Proof.
  destruct (@listing_access_denied listing_denied live_args operator
              (client_error "AccessDeniedException")
              eq_refl eq_refl eq_refl eq_refl) as [H1 [_ [_ H2]]].
  split; [now rewrite H1|]. split; [reflexivity | exact H2].
Defined.

(** ** C6: rows and observed pairs *)





Lemma map_flat_map A B C (f : B -> C) (g : A -> list B) (l : list A) :
  map f (flat_map g l) = flat_map (fun a => map f (g a)) l.
Proof.
  induction l as [|a l IH]; simpl; [reflexivity|].
  now rewrite map_app, IH.
Qed.





(** ** C7: the dry run *)

(** C7: a run in simulation mode ends normally without a single SDK
    operation and without writing a file; it is the same run whatever the
    SDK would have answered (only the clock shows, in the file name); the
    accounts are the three fixture accounts, the rows are the fixture rows,
    and the lines printed for the accounts and for the preview are those of
    the fixtures. *)
Theorem dry_run_touches_no_network (env : Env) (args : Args) :
  arg_dry_run args = true ->
  result_of (main env args) = Val tt
  /\ calls (trace_of (main env args)) = []
  /\ files_written (trace_of (main env args)) = []
  /\ (forall env', now_stamp env' = now_stamp env -> main env' args = main env args)
  /\ accounts_listed env (inventory args) = mock_accounts
  /\ result_of (scan_accounts env mock_accounts (inventory args))
     = Val (map row_of_pair (mock_pairs mock_accounts))
  /\ Forall (fun line => In (Print line) (trace_of (main env args)))
            (map account_line mock_accounts
             ++ map (fun ir => sample_line (fst ir) (snd ir))
                    (enumerate (firstn 3 (map row_of_pair (mock_pairs mock_accounts))) 1)).
Proof.
  intros Hdry.
  assert (Hd : dry_run (inventory args) = true) by exact Hdry.
  destruct (@run_dry env (inventory args) Hd) as [t [H [C [F _]]]].
  split; [unfold main; now rewrite H|].
  split; [unfold main; now rewrite H|].
  split; [unfold main; now rewrite H|].
  split; [|split; [|split]].
  - intros env' Hstamp.
    destruct args as [p d r]. cbn in Hdry. subst d.
    destruct env as [gi la ar df stamp], env' as [gi' la' ar' df' stamp'].
    cbn in Hstamp. subst stamp'. destruct p as [[|c p]|]; reflexivity.
  - unfold accounts_listed.
    rewrite (connect_dry env (inventory args) Hd). unfold self_of. cbn [fst snd].
    destruct (@list_accounts_dry env (inventory args) Hd) as [tl [Hl _]].
    now rewrite Hl.
  - destruct (@scan_accounts_dry env mock_accounts (inventory args) Hd)
      as [ts [Hs _]].
    now rewrite Hs.
  - destruct args as [p d r]. cbn in Hdry. subst d.
    destruct env as [gi la ar df stamp].
    apply Forall_forall. intros line Hl. cbn in Hl.
    destruct p as [[|c p]|];
      repeat (destruct Hl as [<-|Hl]; [in_trace|]); contradiction.
Qed.

Lemma dry_run_touches_no_network_witness :
  calls (trace_of (main denied_then_two no_flags_dry_run)) = []
  /\ main empty_inventory no_flags_dry_run = main denied_then_two no_flags_dry_run.
Proof.
  split.
  - apply (@dry_run_touches_no_network denied_then_two no_flags_dry_run eq_refl).
  - apply (@dry_run_touches_no_network denied_then_two no_flags_dry_run eq_refl).
    reflexivity.
Defined.

(** ** C8: the dry run without other flags *)

(** C8: with [--dry-run] alone the run lists the 3 fixture accounts, every
    account yields the 2 fixture file systems, which makes 6 rows; the
    Reporter prints the count, the columns and the first three rows, then
    the closing lines follow; no file is created, no SDK operation is
    performed and the status is 0. *)
Theorem dry_run_no_flags (env : Env) :
  accounts_listed env (inventory no_flags_dry_run) = mock_accounts
  /\ length mock_accounts = 3
  /\ (forall v a,
        result_of (list_fsx_systems env v a (inventory no_flags_dry_run)) = Val mock_fsx)
  /\ length mock_fsx = 2
  /\ result_of (scan_accounts env mock_accounts (inventory no_flags_dry_run))
     = Val (map row_of_pair (mock_pairs mock_accounts))
  /\ length (map row_of_pair (mock_pairs mock_accounts)) = 6
  /\ printed (trace_of (export_to_csv env (map row_of_pair (mock_pairs mock_accounts))
                                      (inventory no_flags_dry_run)))
     = fixture_preview (output_name env)
  /\ (exists before,
        printed (trace_of (main env no_flags_dry_run))
        = before ++ fixture_preview (output_name env)
                 ++ [(nl ++ banner)%string; "Scan complete!"; banner])
  /\ files_written (trace_of (main env no_flags_dry_run)) = []
  /\ calls (trace_of (main env no_flags_dry_run)) = []
  /\ exit_status (result_of (main env no_flags_dry_run)) = 0%Z.
Proof.
  destruct env as [gi la ar df stamp].
  repeat (split; [reflexivity|]).
  split; [|repeat split].
  exists (firstn 27 (printed (trace_of
            (main {| sts_get_caller_identity := gi; org_list_accounts := la;
                     sts_assume_role := ar; fsx_describe_file_systems := df;
                     now_stamp := stamp |} no_flags_dry_run)))).
  reflexivity.
Qed.

(** * Further properties of the methods *)

(** ** Helpers *)

Lemma accounts_listed_live (env : Env) (self : Inventory) :
  dry_run self = false ->
  accounts_listed env self
  = match failure (org_list_accounts env (new_session (profile_name self))) with
    | None => kept_accounts (pages (org_list_accounts env
                                      (new_session (profile_name self))))
    | Some _ => []
    end.
Proof.
  intros Hdry.
  destruct (connect_live env self Hdry) as [tc [Hc _]].
  assert (Hdry' : dry_run (with_session self
                             (PySession (new_session (profile_name self)))) = false)
    by exact Hdry.
  destruct (@list_accounts_live env (new_session (profile_name self)) _ Hdry' eq_refl)
    as [tl [Hl _]].
  unfold accounts_listed. rewrite Hc. unfold self_of, result_of. cbn [fst snd].
  now rewrite Hl.
Qed.

Lemma fsx_region_trace (env : Env) (s : Session) (r : string)
    (acc : list FileSystemRecord) (self : Inventory) :
  fsx_region env (PySession s) r acc self
  = (Val (acc ++ map (fsx_entry r) (delivered env s r)), self,
     Call (DescribeFileSystems s r)
     :: match failure (fsx_describe_file_systems env s r) with
        | None =>
            if truthy_list (acc ++ map (fsx_entry r) (delivered env s r))
            then [Print ("  ✓ Found "
                           ++ str_of_nat (length (acc ++ map (fsx_entry r)
                                                              (delivered env s r)))
                           ++ " FSX system(s) in " ++ r)]
            else []
        | Some e =>
            if negb (str_in_list (Code e) ["AccessDenied"; "UnauthorizedOperation"])
            then [Print ("  ⚠ Error querying FSX in " ++ r ++ ": " ++ Code e)]
            else []
        end).
Proof.
  unfold fsx_region, delivered.
  cbn [client]. unfold bind at 1. cbn [ret]. unfold bind at 1. cbn [call emit].
  rewrite fsx_pages_app.
  destruct (failure (fsx_describe_file_systems env s r)) as [e|].
  - destruct (negb (str_in_list (Code e) ["AccessDenied"; "UnauthorizedOperation"]));
      reflexivity.
  - destruct (truthy_list _); reflexivity.
Qed.

Lemma assume_role_unconnected (env : Env) (account_id : string) (self : Inventory) :
  dry_run self = false ->
  session self = PyNone ->
  assume_role env account_id self = (Raised AttributeError, self, []).
Proof.
  intros Hdry Hs. unfold assume_role. unfold bind at 1. cbn [get_self].
  rewrite Hdry. unfold bind at 1. rewrite Hs. reflexivity.
Qed.

Lemma keeps_account_complete (raw : RawAccount) :
  Status raw = Some "ACTIVE"
  \/ occurs_ignoring_case "govcloud" (get_default (Name raw) EmptyString)
  \/ occurs_ignoring_case "govcloud" (get_default (Email raw) EmptyString) ->
  keeps_account raw = true.
Proof.
  unfold keeps_account. rewrite !orb_true_iff. intros [H|[H|H]].
  - right. now rewrite H.
  - left; left. apply substring_in_lower; [reflexivity | exact H].
  - left; right. apply substring_in_lower; [reflexivity | exact H].
Qed.

Lemma enumerate_length A (l : list A) (start : nat) :
  length (enumerate l start) = length l.
Proof.
  revert start. induction l as [|x l IH]; intros start; simpl; [reflexivity|].
  now rewrite IH.
Qed.

Lemma enumerate_numbers A (l : list A) (start : nat) :
  map fst (enumerate l start) = seq start (length l).
Proof.
  revert start. induction l as [|x l IH]; intros start; simpl; [reflexivity|].
  now rewrite IH.
Qed.

Lemma printed_prints A (f : A -> string) (l : list A) :
  printed (map (fun x => Print (f x)) l) = map f l.
Proof. induction l as [|x l IH]; simpl; [reflexivity | now rewrite IH]. Qed.

(** ** [run]: what a live run does and never does *)

(** X1: when the identity check of a live run fails, the run ends with
    status 1 having performed that single SDK operation: the organization is
    never listed, no role is assumed, no region is queried and no file is
    written. *)
Theorem authentication_failure_stops_run (env : Env) (args : Args) (f : AuthFailure) :
  arg_dry_run args = false ->
  sts_get_caller_identity env (new_session (arg_profile args)) = inl f ->
  exit_status (result_of (main env args)) = 1%Z
  /\ calls (trace_of (main env args))
     = [GetCallerIdentity (new_session (arg_profile args))]
  /\ files_written (trace_of (main env args)) = [].
Proof.
  intros Hdry Hf.
  assert (Hd : dry_run (inventory args) = false) by exact Hdry.
  destruct (@run_live env (inventory args) Hd) as [t [H [C [F _]]]].
  change (profile_name (inventory args)) with (arg_profile args) in H, C, F.
  rewrite Hf in H, C, F.
  unfold main. rewrite H. unfold result_of, trace_of. cbn [fst snd].
  now rewrite C, F.
Qed.

Lemma authentication_failure_stops_run_witness :
  calls (trace_of (main no_credentials live_args)) = [GetCallerIdentity DefaultSession].
Proof.
  apply (@authentication_failure_stops_run no_credentials live_args NoCredentialsError
           eq_refl eq_refl).
Defined.

(** X2: once the identity check of a live run has succeeded, the SDK
    operations of the run are, in this order: the identity check, the
    listing of the organization, then for every account the Lister returned
    one role assumption (role ARN in the aws-us-gov partition, built from
    the account id and the configured role name; session name
    fsx-inventory-<id>) followed by the query of us-gov-west-1 and of
    us-gov-east-1 with the session settled for that account. *)
Theorem live_run_operations (env : Env) (args : Args) (identity : Identity) :
  arg_dry_run args = false ->
  sts_get_caller_identity env (new_session (arg_profile args)) = inr identity ->
  calls (trace_of (main env args))
  = GetCallerIdentity (new_session (arg_profile args))
    :: ListAccounts (new_session (arg_profile args))
    :: flat_map
         (fun a =>
            [AssumeRole (new_session (arg_profile args))
               ("arn:aws-us-gov:iam::" ++ acct_id a ++ ":role/"
                  ++ get_default (arg_role_name args) default_role_name)
               ("fsx-inventory-" ++ acct_id a);
             DescribeFileSystems
               (session_for env (inventory args) (new_session (arg_profile args)) a)
               "us-gov-west-1";
             DescribeFileSystems
               (session_for env (inventory args) (new_session (arg_profile args)) a)
               "us-gov-east-1"])
         (accounts_listed env (inventory args)).
Proof.
  intros Hdry Hid.
  assert (Hd : dry_run (inventory args) = false) by exact Hdry.
  destruct (@run_live env (inventory args) Hd) as [t [H [C _]]].
  rewrite (accounts_listed_live env (inventory args) Hd).
  change (profile_name (inventory args)) with (arg_profile args) in H, C |- *.
  rewrite Hid in H, C.
  unfold main. rewrite H. unfold trace_of. cbn [snd]. rewrite C.
  reflexivity.
Qed.

Lemma live_run_operations_witness :
  calls (trace_of (main role_granted live_args))
  = [GetCallerIdentity DefaultSession;
     ListAccounts DefaultSession;
     AssumeRole DefaultSession
       "arn:aws-us-gov:iam::111122223333:role/OrganizationAccountAccessRole"
       "fsx-inventory-111122223333";
     DescribeFileSystems (KeySession "ASIAEXAMPLE" "example-secret" "example-token")
       "us-gov-west-1";
     DescribeFileSystems (KeySession "ASIAEXAMPLE" "example-secret" "example-token")
       "us-gov-east-1"].
Proof.
  apply (@live_run_operations role_granted live_args operator eq_refl eq_refl).
Defined.

(** X3: [run] never reads a session that is missing.  Started on any
    object without a profile name (so that [boto3.Session()] is what
    [connect] builds), even one whose [session] is still [None], and with the
    SDK answering every operation with a value, a [ClientError] or, for the
    identity check, [NoCredentialsError], [run] either returns or leaves
    through [sys.exit(1)]; it does not end in [AttributeError]. *)
Theorem run_returns_or_exits (env : Env) (self : Inventory) :
  truthy_opt (profile_name self) = false ->
  result_of (run env self) = Val tt \/ result_of (run env self) = Exited 1%Z.
Proof.
  intros _. destruct (run_outcome env self) as [H _]. rewrite H.
  destruct (authenticates env self);
    [destruct (truthy_list (accounts_listed env self))|]; auto.
Qed.

Lemma run_returns_or_exits_witness :
  session unconnected = PyNone
  /\ (result_of (run denied_then_two unconnected) = Val tt
      \/ result_of (run denied_then_two unconnected) = Exited 1%Z).
Proof.
  split; [reflexivity|].
  apply (@run_returns_or_exits denied_then_two unconnected). reflexivity.
Defined.

(** X4: the scanner relies on [connect] having run.  On a live object whose
    [session] is still [None], scanning a non-empty account list stops at
    the first account with an uncaught [AttributeError], after the two
    console lines and before any SDK operation. *)
Theorem scan_needs_connect (env : Env) (self : Inventory) (a : Account)
    (accounts : list Account) :
  dry_run self = false ->
  session self = PyNone ->
  scan_accounts env (a :: accounts) self
  = (Raised AttributeError, self,
     [Print (nl ++ "→ Scanning accounts for FSX file systems...");
      Print (nl ++ "  Processing: " ++ acct_name a ++ " (" ++ acct_id a ++ ")")]).
Proof.
  intros Hdry Hs.
  etransitivity.
  - unfold scan_accounts. eapply bind_eq; [reflexivity|].
    cbn [scan_loop]. apply bind_raised.
    unfold scan_account. eapply bind_eq; [reflexivity|].
    apply bind_raised. now apply assume_role_unconnected.
  - reflexivity.
Qed.

Lemma scan_needs_connect_witness :
  result_of (scan_accounts denied_then_two [account_entry account_A] unconnected)
  = Raised AttributeError.
Proof.
  rewrite (@scan_needs_connect denied_then_two unconnected (account_entry account_A) []
             eq_refl eq_refl).
  reflexivity.
Defined.

(** ** [list_accounts]: what is kept and what a failure costs *)

Lemma list_accounts_failed (env : Env) (s : Session) (self : Inventory)
    (e : ClientError) :
  dry_run self = false ->
  session self = PySession s ->
  failure (org_list_accounts env s) = Some e ->
  Code e <> "AccessDeniedException" ->
  list_accounts env self
  = (Val [], self,
     [Print (nl ++ "→ Listing accounts in organization...");
      Call (ListAccounts s);
      Print ("ERROR: Failed to list accounts: " ++ err_text e)]).
Proof.
  intros Hdry Hs Hf Hc. unfold list_accounts. unfold bind at 1. cbn [get_self].
  rewrite Hdry, Hs.
  unfold bind at 1. cbn [client ret].
  unfold bind at 1. cbn [print emit].
  unfold bind at 1. cbn [call emit].
  rewrite Hf. apply String.eqb_neq in Hc. rewrite Hc. reflexivity.
Qed.

(** X5: when the listing of a live run completes, [list_accounts] returns
    the kept accounts in the order of the listing, page after page, and it
    keeps every delivered account that is ACTIVE or carries the marker
    govcloud, case ignored, in its name or email: the filter loses none of
    them. *)
Theorem lister_keeps_every_match (env : Env) (self : Inventory) (s : Session) :
  dry_run self = false ->
  session self = PySession s ->
  failure (org_list_accounts env s) = None ->
  result_of (list_accounts env self)
  = Val (map account_entry
             (filter keeps_account (concat (pages (org_list_accounts env s)))))
  /\ (forall raw,
        In raw (concat (pages (org_list_accounts env s))) ->
        Status raw = Some "ACTIVE"
        \/ occurs_ignoring_case "govcloud" (get_default (Name raw) EmptyString)
        \/ occurs_ignoring_case "govcloud" (get_default (Email raw) EmptyString) ->
        In (account_entry raw)
           (map account_entry
                (filter keeps_account (concat (pages (org_list_accounts env s)))))).
Proof.
  intros Hdry Hs Hf.
  destruct (@list_accounts_live env s self Hdry Hs) as [t [H _]].
  rewrite Hf in H. rewrite H. split; [reflexivity|].
  intros raw Hin Hmatch. apply in_map. apply filter_In.
  split; [exact Hin | now apply keeps_account_complete].
Qed.

Lemma lister_keeps_every_match_witness :
  result_of (list_accounts mixed_listing live_self)
  = Val [account_entry account_A;
         account_entry (raw_account "000011112222" "Old-GovCloud" "old@example.com"
                                    "SUSPENDED")].
Proof.
  apply (@lister_keeps_every_match mixed_listing live_self DefaultSession
           eq_refl eq_refl eq_refl).
Defined.

(** X6: a listing that fails with any code other than AccessDeniedException
    is treated like the denied one: the accounts of the pages already
    delivered are dropped, [list_accounts] prints one line with the text of
    the error and returns the empty list, and the run ends with status 1. *)
Theorem listing_failure_discards_pages (env : Env) (args : Args) (identity : Identity)
    (e : ClientError) :
  arg_dry_run args = false ->
  sts_get_caller_identity env (new_session (arg_profile args)) = inr identity ->
  failure (org_list_accounts env (new_session (arg_profile args))) = Some e ->
  Code e <> "AccessDeniedException" ->
  list_accounts env (self_of (connect env (inventory args)))
  = (Val [], self_of (connect env (inventory args)),
     [Print (nl ++ "→ Listing accounts in organization...");
      Call (ListAccounts (new_session (arg_profile args)));
      Print ("ERROR: Failed to list accounts: " ++ err_text e)])
  /\ exit_status (result_of (main env args)) = 1%Z.
Proof.
  intros Hdry Hid Hf Hc.
  assert (Hd : dry_run (inventory args) = false) by exact Hdry.
  destruct (connect_live env (inventory args) Hd) as [tc [Hcon _]].
  change (profile_name (inventory args)) with (arg_profile args) in Hcon.
  rewrite Hid in Hcon.
  assert (Hl : list_accounts env (self_of (connect env (inventory args)))
               = (Val [], self_of (connect env (inventory args)),
                  [Print (nl ++ "→ Listing accounts in organization...");
                   Call (ListAccounts (new_session (arg_profile args)));
                   Print ("ERROR: Failed to list accounts: " ++ err_text e)])).
  { rewrite Hcon. unfold self_of. cbn [fst snd].
    apply list_accounts_failed; auto. }
  split; [exact Hl|].
  rewrite Hcon in Hl. unfold self_of in Hl. cbn [fst snd] in Hl.
  destruct (@run_stops_without_accounts env _ _ _ _ Hcon Hl) as [t [Hrun _]].
  unfold main. now rewrite Hrun.
Qed.

Lemma listing_failure_discards_pages_witness :
  length (concat (pages (org_list_accounts listing_throttled DefaultSession))) = 1
  /\ result_of (list_accounts listing_throttled
                  (self_of (connect listing_throttled (inventory live_args))))
     = Val []
  /\ exit_status (result_of (main listing_throttled live_args)) = 1%Z.
Proof.
  destruct (@listing_failure_discards_pages listing_throttled live_args operator
              (client_error "TooManyRequestsException") eq_refl eq_refl eq_refl)
    as [H1 H2].
  - discriminate.
  - split; [reflexivity|]. split; [now rewrite H1 | exact H2].
Defined.

(** ** [assume_role] and [scan_accounts]: which session queries *)

(** X7: when the role of an account is assumed, the scan of that account
    queries every region with the session built from the three credentials
    returned, not with the caller's session, and appends the file systems
    that session sees. *)
Theorem assumed_session_is_used (env : Env) (self : Inventory) (s : Session)
    (a : Account) (c : Credentials) (results : list InventoryRow) :
  dry_run self = false ->
  session self = PySession s ->
  sts_assume_role env s (role_arn_of (acct_id a) (role_name self))
                  ("fsx-inventory-" ++ acct_id a) = inr c ->
  calls (trace_of (scan_account env a results self))
  = AssumeRole s (role_arn_of (acct_id a) (role_name self))
               ("fsx-inventory-" ++ acct_id a)
    :: map (DescribeFileSystems
              (KeySession (AccessKeyId c) (SecretAccessKey c) (SessionToken c)))
           (govcloud_regions self)
  /\ result_of (scan_account env a results self)
     = Val (results
            ++ map (inventory_row (acct_name a) (acct_id a))
                   (observed_records env
                      (KeySession (AccessKeyId c) (SecretAccessKey c) (SessionToken c))
                      (govcloud_regions self))).
Proof.
  intros Hdry Hs Hc.
  assert (Hfor : session_for env self s a
                 = KeySession (AccessKeyId c) (SecretAccessKey c) (SessionToken c)).
  { unfold session_for. now rewrite Hc. }
  destruct (@scan_account_live env s a results self Hdry Hs) as [t [H [C _]]].
  unfold account_calls in C. rewrite Hfor in H, C.
  rewrite H. unfold result_of, trace_of. cbn [fst snd].
  split; [exact C | reflexivity].
Qed.

Lemma assumed_session_is_used_witness :
  result_of (scan_account role_granted (account_entry account_A) [] live_self)
  = Val [inventory_row "Account-A" "111122223333"
           (fsx_entry "us-gov-west-1" (raw_fs "fs-0a" "LUSTRE"));
         inventory_row "Account-A" "111122223333"
           (fsx_entry "us-gov-west-1" (raw_fs "fs-0b" "ONTAP"))].
Proof.
  apply (@assumed_session_is_used role_granted live_self DefaultSession
           (account_entry account_A) granted [] eq_refl eq_refl eq_refl).
Defined.

(** X8: when the roles of two accounts cannot be assumed, each of them is
    scanned with the caller's session: after its own role assumption the
    regions are queried with that session, and the rows appended for either
    account are built from the records the caller's session observes, so the
    two accounts get the same file systems under different account columns. *)
Theorem fallback_attributes_same_records (env : Env) (self : Inventory) (s : Session)
    (a b : Account) (ea eb : ClientError) (ra rb : list InventoryRow) :
  dry_run self = false ->
  session self = PySession s ->
  sts_assume_role env s (role_arn_of (acct_id a) (role_name self))
                  ("fsx-inventory-" ++ acct_id a) = inl ea ->
  sts_assume_role env s (role_arn_of (acct_id b) (role_name self))
                  ("fsx-inventory-" ++ acct_id b) = inl eb ->
  result_of (scan_account env a ra self)
  = Val (ra ++ map (inventory_row (acct_name a) (acct_id a))
                   (observed_records env s (govcloud_regions self)))
  /\ result_of (scan_account env b rb self)
     = Val (rb ++ map (inventory_row (acct_name b) (acct_id b))
                      (observed_records env s (govcloud_regions self)))
  /\ calls (trace_of (scan_account env a ra self))
     = AssumeRole s (role_arn_of (acct_id a) (role_name self))
                  ("fsx-inventory-" ++ acct_id a)
       :: map (DescribeFileSystems s) (govcloud_regions self)
  /\ calls (trace_of (scan_account env b rb self))
     = AssumeRole s (role_arn_of (acct_id b) (role_name self))
                  ("fsx-inventory-" ++ acct_id b)
       :: map (DescribeFileSystems s) (govcloud_regions self).
Proof.
  intros Hdry Hs Ha Hb.
  destruct (@scan_account_live env s a ra self Hdry Hs) as [ta [H1 [C1 _]]].
  destruct (@scan_account_live env s b rb self Hdry Hs) as [tb [H2 [C2 _]]].
  unfold account_calls in C1, C2.
  unfold session_for in H1, H2, C1, C2.
  rewrite Ha in H1, C1. rewrite Hb in H2, C2.
  rewrite H1, H2. unfold result_of, trace_of. cbn [fst snd].
  repeat split; assumption.
Qed.

Lemma fallback_attributes_same_records_witness :
  result_of (scan_account west_two (account_entry account_A) [] live_self)
  = Val [inventory_row "Account-A" "111122223333"
           (fsx_entry "us-gov-west-1" (raw_fs "fs-0a" "LUSTRE"));
         inventory_row "Account-A" "111122223333"
           (fsx_entry "us-gov-west-1" (raw_fs "fs-0b" "ONTAP"))]
  /\ result_of (scan_account west_two (account_entry account_B) [] live_self)
     = Val [inventory_row "Account-B" "444455556666"
              (fsx_entry "us-gov-west-1" (raw_fs "fs-0a" "LUSTRE"));
            inventory_row "Account-B" "444455556666"
              (fsx_entry "us-gov-west-1" (raw_fs "fs-0b" "ONTAP"))].
Proof.
  destruct (@fallback_attributes_same_records west_two live_self DefaultSession
              (account_entry account_A) (account_entry account_B)
              (client_error "AccessDenied") (client_error "AccessDenied") [] []
              eq_refl eq_refl eq_refl eq_refl) as [H1 [H2 _]].
  split; [exact H1 | exact H2].
Defined.

(** ** [list_fsx_systems]: what a live query prints and returns *)

(** X9: the count in the line printed for a region is the size of the list
    accumulated so far, not the number of file systems of that region: with
    two regions that both answer and a first region that delivers something,
    the second line reports the sum of both regions, even when the second
    region delivers nothing. *)
Theorem found_count_is_cumulative (env : Env) (self : Inventory) (s : Session)
    (account : Account) (r1 r2 : string) :
  dry_run self = false ->
  govcloud_regions self = [r1; r2] ->
  failure (fsx_describe_file_systems env s r1) = None ->
  failure (fsx_describe_file_systems env s r2) = None ->
  delivered env s r1 <> [] ->
  printed (trace_of (list_fsx_systems env (PySession s) account self))
  = [ "  ✓ Found " ++ str_of_nat (length (delivered env s r1))
        ++ " FSX system(s) in " ++ r1;
      "  ✓ Found "
        ++ str_of_nat (length (delivered env s r1) + length (delivered env s r2))
        ++ " FSX system(s) in " ++ r2 ]%string.
Proof.
  intros Hdry Hreg Hf1 Hf2 Hne.
  unfold list_fsx_systems. unfold bind at 1. cbn [get_self].
  rewrite Hdry, Hreg. cbn [fsx_regions].
  erewrite bind_eq;
    [| apply fsx_region_trace
     | eapply bind_eq; [apply fsx_region_trace | reflexivity]].
  unfold trace_of. cbn [snd]. rewrite Hf1, Hf2. cbn [app].
  destruct (delivered env s r1) as [|fs1 rest1]; [contradiction|].
  cbn [map app truthy_list printed length Nat.add].
  rewrite length_app, !length_map. reflexivity.
Qed.

Lemma found_count_is_cumulative_witness :
  printed (trace_of (list_fsx_systems west_two (PySession DefaultSession)
                       (account_entry account_A) live_self))
  = [ "  ✓ Found 2 FSX system(s) in us-gov-west-1";
      "  ✓ Found 2 FSX system(s) in us-gov-east-1" ].
Proof.
  apply (@found_count_is_cumulative west_two live_self DefaultSession
           (account_entry account_A) "us-gov-west-1" "us-gov-east-1"
           eq_refl eq_refl eq_refl eq_refl).
  discriminate.
Defined.

Lemma fsx_regions_silent (env : Env) (s : Session) (self : Inventory)
    (regions : list string) (acc : list FileSystemRecord) :
  (forall r, In r regions ->
     exists e, failure (fsx_describe_file_systems env s r) = Some e
               /\ (Code e = "AccessDenied" \/ Code e = "UnauthorizedOperation")) ->
  printed (trace_of (fsx_regions env (PySession s) regions acc self)) = [].
Proof.
  revert acc. induction regions as [|r regions IH]; intros acc H; [reflexivity|].
  cbn [fsx_regions].
  destruct (fsx_regions env (PySession s) regions
              (acc ++ map (fsx_entry r) (delivered env s r)) self)
    as [[o self2] t2] eqn:E.
  erewrite bind_eq; [| apply fsx_region_trace | exact E].
  unfold trace_of. cbn [snd].
  assert (Ht2 : printed t2 = []).
  { specialize (IH (acc ++ map (fsx_entry r) (delivered env s r))
                   (fun r' Hr' => H r' (or_intror Hr'))).
    rewrite E in IH. exact IH. }
  destruct (H r (or_introl eq_refl)) as [e [Hf Hcode]].
  rewrite Hf. cbn [printed]. rewrite printed_app, Ht2, app_nil_r.
  destruct Hcode as [-> | ->]; reflexivity.
Qed.

(** X10: a region that answers AccessDenied or UnauthorizedOperation leaves
    no trace on the console.  When every region answers so, the query of an
    account prints nothing at all and still returns what the regions
    delivered before failing. *)
Theorem denied_regions_are_silent (env : Env) (self : Inventory) (s : Session)
    (account : Account) :
  dry_run self = false ->
  (forall r, In r (govcloud_regions self) ->
     exists e, failure (fsx_describe_file_systems env s r) = Some e
               /\ (Code e = "AccessDenied" \/ Code e = "UnauthorizedOperation")) ->
  printed (trace_of (list_fsx_systems env (PySession s) account self)) = []
  /\ result_of (list_fsx_systems env (PySession s) account self)
     = Val (observed_records env s (govcloud_regions self)).
Proof.
  intros Hdry H. split.
  - unfold list_fsx_systems. unfold bind at 1. cbn [get_self]. rewrite Hdry.
    destruct (fsx_regions env (PySession s) (govcloud_regions self) [] self)
      as [[o self2] t2] eqn:E.
    unfold trace_of. cbn [snd app].
    pose proof (@fsx_regions_silent env s self (govcloud_regions self) [] H) as P.
    rewrite E in P. exact P.
  - destruct (@list_fsx_systems_live env s account self Hdry) as [t [Hl _]].
    now rewrite Hl.
Qed.

Lemma denied_regions_are_silent_witness :
  printed (trace_of (list_fsx_systems all_denied (PySession DefaultSession)
                       (account_entry account_A) live_self)) = [].
Proof.
  apply (@denied_regions_are_silent all_denied live_self DefaultSession
           (account_entry account_A) eq_refl).
  intros r [<-|[<-|[]]].
  - exists (client_error "AccessDenied"). split; [reflexivity | left; reflexivity].
  - exists (client_error "UnauthorizedOperation").
    split; [reflexivity | right; reflexivity].
Defined.

(** X11: every record a live query returns carries, as its region, the
    configured region it was obtained from, and is the entry of a file
    system that region delivered. *)
Theorem records_carry_queried_region (env : Env) (self : Inventory) (s : Session)
    (account : Account) :
  dry_run self = false ->
  exists records,
    result_of (list_fsx_systems env (PySession s) account self) = Val records
    /\ forall rec, In rec records ->
         In (region rec) (govcloud_regions self)
         /\ exists fs, In fs (delivered env s (region rec))
                       /\ rec = fsx_entry (region rec) fs.
Proof.
  intros Hdry.
  destruct (@list_fsx_systems_live env s account self Hdry) as [t [Hl _]].
  rewrite Hl. eexists. split; [reflexivity|].
  intros rec Hrec. unfold observed_records in Hrec.
  apply in_flat_map in Hrec. destruct Hrec as [r [Hr Hin]].
  apply in_map_iff in Hin. destruct Hin as [fs [<- Hfs]].
  cbn [fsx_entry region]. split; [exact Hr|].
  exists fs. split; [exact Hfs | reflexivity].
Qed.

Lemma records_carry_queried_region_witness :
  exists records,
    result_of (list_fsx_systems west_two (PySession DefaultSession)
                 (account_entry account_A) live_self) = Val records
    /\ Forall (fun rec => In (region rec) ["us-gov-west-1"; "us-gov-east-1"]) records.
Proof.
  destruct (@records_carry_queried_region west_two live_self DefaultSession
              (account_entry account_A) eq_refl) as [records [H P]].
  exists records. split; [exact H|].
  apply Forall_forall. intros rec Hrec. exact (proj1 (P rec Hrec)).
Defined.

(** ** [export_to_csv]: the preview and the file *)

(** X12: the preview of a dry run prints the count line and the column
    line; for a non-empty result list it adds the sample heading and one
    line per row of the first three, numbered from 1, so that the number of
    sample lines is the smaller of 3 and the number of rows; for an empty
    list it adds nothing. *)
Theorem preview_shows_at_most_three (env : Env) (self : Inventory)
    (results : list InventoryRow) :
  dry_run self = true ->
  printed (trace_of (export_to_csv env results self))
  = ((nl ++ "→ [DRY-RUN] Would write " ++ str_of_nat (length results)
         ++ " result(s) to " ++ output_name env)%string
     :: "  [DRY-RUN] CSV columns: Organization Name, GovCloud Account ID, FSX ID, FSX Type, Region, Lifecycle"
     :: match results with
        | [] => []
        | _ :: _ =>
            (nl ++ "  [DRY-RUN] Sample data (first 3 rows):")%string
            :: map (fun ir => sample_line (fst ir) (snd ir))
                   (enumerate (firstn 3 results) 1)
        end)
  /\ length (enumerate (firstn 3 results) 1) = Nat.min 3 (length results)
  /\ map fst (enumerate (firstn 3 results) 1) = seq 1 (Nat.min 3 (length results)).
Proof.
  intros Hdry. split; [|split].
  - unfold export_to_csv. unfold bind at 1. cbn [get_self]. rewrite Hdry.
    unfold bind at 1. cbn [print emit].
    unfold bind at 1. cbn [print emit].
    unfold bind at 1.
    destruct results as [|r results]; [reflexivity|].
    cbn [truthy_list when]. unfold bind at 1. cbn [print emit].
    rewrite for_each_print. unfold trace_of. cbn [snd ret app printed].
    rewrite printed_app, printed_prints. cbn [printed]. now rewrite app_nil_r.
  - now rewrite enumerate_length, length_firstn.
  - now rewrite enumerate_numbers, length_firstn.
Qed.

Lemma preview_shows_at_most_three_witness :
  length (printed (trace_of (export_to_csv denied_then_two
                               (map row_of_pair (mock_pairs mock_accounts))
                               (inventory no_flags_dry_run))))
  = 6.
Proof.
  rewrite (proj1 (@preview_shows_at_most_three denied_then_two
                    (inventory no_flags_dry_run)
                    (map row_of_pair (mock_pairs mock_accounts)) eq_refl)).
  reflexivity.
Defined.

Lemma row_values_injective (r1 r2 : InventoryRow) :
  row_values r1 = row_values r2 -> r1 = r2.
Proof.
  destruct r1, r2. unfold row_values. cbn. intros H. now inversion H.
Qed.

Lemma map_row_values_injective (l1 l2 : list InventoryRow) :
  map row_values l1 = map row_values l2 -> l1 = l2.
Proof.
  revert l2. induction l1 as [|r1 l1 IH]; intros [|r2 l2] H; cbn [map] in H;
    try discriminate; [reflexivity|].
  assert (Hr : row_values r1 = row_values r2) by congruence.
  assert (Hl : map row_values l1 = map row_values l2) by congruence.
  f_equal; [now apply row_values_injective | now apply IH].
Qed.

(** X13: the export of a live run loses nothing.  The keys of a row
    dictionary are exactly the field names of the writer, in the same order,
    and what two exports leave on disk (a file, or none) is the same only
    when the two result lists are the same. *)
Theorem export_is_lossless (env : Env) (self : Inventory)
    (results1 results2 : list InventoryRow) :
  dry_run self = false ->
  files_written (trace_of (export_to_csv env results1 self))
  = files_written (trace_of (export_to_csv env results2 self)) ->
  results1 = results2
  /\ Forall (fun row => map fst (row_items row) = fieldnames) results1.
Proof.
  intros Hdry H.
  destruct (export_to_csv_run env results1 self) as [t1 [H1 [_ F1]]].
  destruct (export_to_csv_run env results2 self) as [t2 [H2 [_ F2]]].
  rewrite H1, H2 in H. unfold trace_of in H. cbn [snd] in H.
  rewrite F1, F2, Hdry in H.
  split; [|apply Forall_forall; intros row _; reflexivity].
  destruct results1 as [|a1 l1], results2 as [|a2 l2]; try discriminate H;
    [reflexivity|].
  apply map_row_values_injective. congruence.
Qed.

Lemma export_is_lossless_witness :
  rows_of_A
  = [ {| Organization_Name := "Account-A";
         GovCloud_Account_ID := "111122223333";
         FSX_ID := "fs-0a";
         FSX_Type := "LUSTRE";
         Region := "us-gov-east-1";
         Lifecycle_col := "AVAILABLE" |};
      {| Organization_Name := "Account-A";
         GovCloud_Account_ID := "111122223333";
         FSX_ID := "fs-0b";
         FSX_Type := "ONTAP";
         Region := "us-gov-east-1";
         Lifecycle_col := "AVAILABLE" |} ].
Proof.
  apply (@export_is_lossless denied_then_two live_self rows_of_A _ eq_refl).
  reflexivity.
Defined.

(** X14: end to end, the file of a live run that has authenticated holds the
    header and then, in order, the six values of one record per (account,
    file system) pair observed for the accounts the Lister returned; when no
    pair is observed the run writes no file, and it never writes more than
    one. *)
Theorem exported_file_holds_observed_pairs (env : Env) (args : Args)
    (identity : Identity) :
  arg_dry_run args = false ->
  sts_get_caller_identity env (new_session (arg_profile args)) = inr identity ->
  files_written (trace_of (main env args))
  = match observed_pairs env (inventory args) (new_session (arg_profile args))
                         (accounts_listed env (inventory args)) with
    | [] => []
    | _ :: _ =>
        [(output_name env,
          fieldnames
          :: map (fun p => row_values (row_of_pair p))
                 (observed_pairs env (inventory args) (new_session (arg_profile args))
                                 (accounts_listed env (inventory args))))]
    end.
Proof.
  intros Hdry Hid.
  assert (Hd : dry_run (inventory args) = false) by exact Hdry.
  destruct (@run_live env (inventory args) Hd) as [t [H [_ [F _]]]].
  rewrite (accounts_listed_live env (inventory args) Hd).
  change (profile_name (inventory args)) with (arg_profile args) in H, F |- *.
  rewrite Hid in F.
  unfold main. rewrite H. unfold trace_of. cbn [snd]. rewrite F.
  change (observed_pairs env
            (with_session (inventory args) (PySession (new_session (arg_profile args)))))
    with (observed_pairs env (inventory args)).
  destruct (observed_pairs env (inventory args) (new_session (arg_profile args)) _)
    as [|p ps]; [reflexivity|].
  cbn [map]. rewrite map_map. reflexivity.
Qed.

Lemma exported_file_holds_observed_pairs_witness :
  files_written (trace_of (main denied_then_two live_args))
  = [("govcloud_fsx_inventory_20240115_093000.csv",
      fieldnames :: map row_values rows_of_A)].
Proof.
  apply (@exported_file_holds_observed_pairs denied_then_two live_args operator
           eq_refl eq_refl).
Defined.

(** ** The dry run of the scanner, and the empty profile name *)

(** X15: on a dry run the scanner gives every account of any list the two
    fixture file systems, so the rows are twice as many as the accounts, and
    it performs no SDK operation. *)
Theorem dry_scan_uses_fixtures (env : Env) (self : Inventory)
    (accounts : list Account) :
  dry_run self = true ->
  result_of (scan_accounts env accounts self)
  = Val (flat_map (fun a => map (inventory_row (acct_name a) (acct_id a)) mock_fsx)
                  accounts)
  /\ length (flat_map (fun a => map (inventory_row (acct_name a) (acct_id a)) mock_fsx)
                      accounts)
     = 2 * length accounts
  /\ calls (trace_of (scan_accounts env accounts self)) = [].
Proof.
  intros Hdry.
  destruct (@scan_accounts_dry env accounts self Hdry) as [t [H [C _]]].
  rewrite H. unfold result_of, trace_of. cbn [fst snd].
  split; [|split; [|exact C]].
  - unfold mock_pairs. rewrite map_flat_map.
    apply (f_equal Val). apply flat_map_ext. intros a. apply map_row_of_pair.
  - clear H C. induction accounts as [|a accounts IH]; [reflexivity|].
    cbn [flat_map]. rewrite length_app, IH. cbn. lia.
Qed.

Lemma dry_scan_uses_fixtures_witness :
  length (flat_map (fun a => map (inventory_row (acct_name a) (acct_id a)) mock_fsx)
                   [account_entry account_A; account_entry account_B])
  = 2 * 2.
Proof.
  apply (@dry_scan_uses_fixtures denied_then_two (inventory no_flags_dry_run)
           [account_entry account_A; account_entry account_B] eq_refl).
Defined.

(** X16: an empty profile name is no profile: the run with [--profile]
    given the empty string has the outcome, the SDK operations and the file
    of the run without [--profile]. *)
Theorem empty_profile_means_default (env : Env) (dry : bool) (role : option string) :
  result_of (main env {| arg_profile := Some EmptyString; arg_dry_run := dry;
                         arg_role_name := role |})
  = result_of (main env {| arg_profile := None; arg_dry_run := dry;
                           arg_role_name := role |})
  /\ calls (trace_of (main env {| arg_profile := Some EmptyString; arg_dry_run := dry;
                                  arg_role_name := role |}))
     = calls (trace_of (main env {| arg_profile := None; arg_dry_run := dry;
                                    arg_role_name := role |}))
  /\ files_written (trace_of (main env {| arg_profile := Some EmptyString;
                                          arg_dry_run := dry;
                                          arg_role_name := role |}))
     = files_written (trace_of (main env {| arg_profile := None; arg_dry_run := dry;
                                            arg_role_name := role |})).
Proof.
  unfold main. destruct dry.
  - destruct (@run_dry env
                (inventory {| arg_profile := Some EmptyString; arg_dry_run := true;
                              arg_role_name := role |}) eq_refl)
      as [t1 [H1 [C1 [F1 _]]]].
    destruct (@run_dry env
                (inventory {| arg_profile := None; arg_dry_run := true;
                              arg_role_name := role |}) eq_refl)
      as [t2 [H2 [C2 [F2 _]]]].
    rewrite H1, H2. unfold result_of, trace_of. cbn [fst snd].
    rewrite C1, C2, F1, F2. repeat split.
  - destruct (@run_live env
                (inventory {| arg_profile := Some EmptyString; arg_dry_run := false;
                              arg_role_name := role |}) eq_refl)
      as [t1 [H1 [C1 [F1 _]]]].
    destruct (@run_live env
                (inventory {| arg_profile := None; arg_dry_run := false;
                              arg_role_name := role |}) eq_refl)
      as [t2 [H2 [C2 [F2 _]]]].
    rewrite H1, H2. unfold result_of, trace_of. cbn [fst snd].
    rewrite C1, C2, F1, F2. repeat split.
Qed.
